(** * The calculated-column engine of [src/columnDataUtils.tsx]

    A shallow embedding of the four classes of the engine
    ([ColumnCalculation], [ColumnAggregator], [ColumnData], [DataTable])
    and the properties of the calculation and compile pass.

    Conventions of the embedding.
    - A JavaScript [number] is an IEEE binary64 value: [spec_float] with
      the operations of the Standard Library at precision 53.
    - [String(x)] on a number is [Number.toString], the Number::toString
      operation of ECMAScript at radix 10.  [Number(s)] on a string and
      [math.evaluate] of mathjs are parameters of the development.
    - An abrupt completion ([throw]) is the [Throw] constructor of
      [completion]; a [try]/[catch] is a case analysis on the completion
      of the [try] block.
    - A row index and a column position are natural numbers.  A rows
      object is keyed by the row index itself: the source keys it by
      [String(rowIndex)] and reads the index back with [Number(key)],
      which are inverse to each other on indices.  The same holds for the
      column positions that key the raw data.
    - An object literal used as a dictionary is a finite map of its own
      properties: the names that every object inherits ([constructor],
      [toString] and the like) are no column names and no variable names
      here.
    - A string is a sequence of 8-bit characters; the line terminators
      among them are line feed and carriage return.
    - The columns of a table are held by value: no column object stands
      at two positions, and a calculation belongs to one column.  The
      rows object of a column is held by reference where [compile] makes
      it the raw data of the table ([RowsRef]).
    - The table component of [src/DynamicTable.tsx] is its state, the
      values of its three [useState] hooks, and its handlers are
      functions on the state; the raw data that it shows is a parameter. *)

From Stdlib Require Import ZArith String Ascii SpecFloat DecimalString DecimalPos.
From stdpp Require Import gmap strings list sorting.

Local Open Scope string_scope.

(** ** Completions: normal return or a thrown error *)

Inductive Error : Type :=
  | TypeError (message : string)
  | EvaluationError.

Inductive completion (A : Type) : Type :=
  | Normal (a : A)
  | Throw (e : Error).
Arguments Normal {A} a.
Arguments Throw {A} e.

Definition bind {A B : Type} (c : completion A) (k : A -> completion B) : completion B :=
  match c with
  | Normal a => k a
  | Throw e => Throw e
  end.

Notation "'let*' x ':=' c 'in' k" := (bind c (fun x => k))
  (at level 10, x name, c at level 100, k at level 200).

(** A [for] loop over [l] whose body may throw: the state is threaded
    through the iterations and a throw leaves the loop. *)
Fixpoint for_each {A S : Type} (l : list A) (body : A -> S -> completion S) (s : S) : completion S :=
  match l with
  | [] => Normal s
  | a :: l' => let* s' := body a s in for_each l' body s'
  end.

(** ** Numbers *)

Module Number.

Local Open Scope Z_scope.

Definition prec : Z := 53.
Definition emax : Z := 1024.

Definition NaN : spec_float := S754_nan.
Definition Infinity : spec_float := S754_infinity false.
Definition NegInfinity : spec_float := S754_infinity true.
Definition zero : spec_float := S754_zero false.

(** The number denoted by an integer literal. *)
Definition of_Z (z : Z) : spec_float := binary_normalize prec emax z 0 false.
Definition of_nat (n : nat) : spec_float := of_Z (Z.of_nat n).

Definition add (x y : spec_float) : spec_float := SFadd prec emax x y.
Definition div (x y : spec_float) : spec_float := SFdiv prec emax x y.
(** [x < y] and [x > y]: false as soon as an operand is NaN. *)
Definition lt (x y : spec_float) : bool := SFltb x y.
Definition gt (x y : spec_float) : bool := SFltb y x.

(** *** Number::toString, radix 10

    For a finite non-zero [x] of magnitude [m * 2^e] the operation takes
    integers [n], [k], [s] with [k >= 1], [10^(k-1) <= s < 10^k],
    [s * 10^(n-k)] a real number that rounds to [x], and [k] as small
    as possible; among several [s] the one closest to [x].  Below,
    [p] stands for [n - k], and lengths are counted in quarters of the
    unit in the last place, [2^(e-2)], so that the midpoints to both
    neighbours of [x] are integers. *)

(** The midpoints to the neighbours of [m * 2^e], in units of
    [2^(e-2)].  The lower neighbour is half as far away when [m] is the
    least mantissa of a binade above the subnormal range. *)
Definition lower_bound (m : positive) (e : Z) : Z :=
  if Pos.eqb m (2 ^ 52) && Z.ltb (emin prec emax) e
  then 4 * Z.pos m - 1 else 4 * Z.pos m - 2.
Definition upper_bound (m : positive) : Z := 4 * Z.pos m + 2.

(** [s * 10^p] compared with [v * 2^(e-2)] is [s * scale_s] compared
    with [v * scale_v]. *)
Definition scale_s (p e : Z) : Z := 10 ^ Z.max p 0 * 2 ^ Z.max (2 - e) 0.
Definition scale_v (p e : Z) : Z := 10 ^ Z.max (- p) 0 * 2 ^ Z.max (e - 2) 0.

Definition ceil_div (a b : Z) : Z := - ((- a) / b).

(** The least and the greatest [s] for which [s * 10^p] rounds to
    [m * 2^e]: a midpoint itself rounds to the neighbour with the even
    mantissa. *)
Definition least_s (m : positive) (e p : Z) : Z :=
  let a := lower_bound m e * scale_v p e in
  if Z.even (Z.pos m) then ceil_div a (scale_s p e) else a / scale_s p e + 1.
Definition greatest_s (m : positive) (e p : Z) : Z :=
  let a := upper_bound m * scale_v p e in
  if Z.even (Z.pos m) then a / scale_s p e else ceil_div a (scale_s p e) - 1.

(** The integer closest to [m * 2^e / 10^p], the even one on a tie,
    kept within the two bounds. *)
Definition closest_s (m : positive) (e p : Z) : Z :=
  let a := 4 * Z.pos m * scale_v p e in
  let q := a / scale_s p e in
  let r := a mod scale_s p e in
  let c := match 2 * r ?= scale_s p e with
           | Lt => q
           | Gt => q + 1
           | Eq => if Z.even q then q else q + 1
           end in
  Z.max (least_s m e p) (Z.min (greatest_s m e p) c).

(** The greatest [p], searched downwards from [p], at which some
    [s * 10^p] rounds to [m * 2^e]: there [s] has the fewest digits. *)
Fixpoint shortest (fuel : nat) (m : positive) (e p : Z) : Z * Z :=
  match fuel with
  | O => (closest_s m e p, p)
  | S fuel' =>
      if Z.leb (least_s m e p) (greatest_s m e p) && Z.ltb 0 (greatest_s m e p)
      then (closest_s m e p, p)
      else shortest fuel' m e (p - 1)
  end.

(** A power of ten above [m * 2^e]. *)
Definition start_exponent (m : positive) (e : Z) : Z :=
  let bits := Z.pos (digits2_pos m) + e in
  (if Z.leb 0 bits then bits * 31 / 100 else bits * 30 / 100) + 2.

Definition digits (s : Z) : string :=
  NilEmpty.string_of_uint (Pos.to_uint (Z.to_pos s)).

Fixpoint zeros (n : nat) : string :=
  match n with
  | O => ""
  | S n' => String "0" (zeros n')
  end.

(** The first [n] characters of [s], and the rest. *)
Fixpoint split_at (n : nat) (s : string) : string * string :=
  match n, s with
  | S n', String c s' => let '(a, b) := split_at n' s' in (String c a, b)
  | _, _ => ("", s)
  end.

Definition exponent_part (e : Z) : string :=
  "e" ++ (if Z.ltb e 0 then "-" else "+") ++ digits (Z.abs e).

(** Steps 6 to 10 of Number::toString for the digits [s] and [n]. *)
Definition layout (s : Z) (p : Z) : string :=
  let ds := digits s in
  let k := Z.of_nat (String.length ds) in
  let n := p + k in
  if Z.leb k n && Z.leb n 21 then ds ++ zeros (Z.to_nat (n - k))
  else if Z.ltb 0 n && Z.leb n 21 then
    let '(a, b) := split_at (Z.to_nat n) ds in a ++ "." ++ b
  else if Z.ltb (-6) n && Z.leb n 0 then "0." ++ zeros (Z.to_nat (- n)) ++ ds
  else
    match ds with
    | String c "" => String c (exponent_part (n - 1))
    | String c rest => String c ("." ++ rest ++ exponent_part (n - 1))
    | "" => ""
    end.

Definition finiteToString (m : positive) (e : Z) : string :=
  let '(s, p) := shortest 60 m e (start_exponent m e) in layout s p.

Definition toString (x : spec_float) : string :=
  match x with
  | S754_nan => "NaN"
  | S754_zero _ => "0"
  | S754_infinity false => "Infinity"
  | S754_infinity true => "-Infinity"
  | S754_finite false m e => finiteToString m e
  | S754_finite true m e => "-" ++ finiteToString m e
  end.

(** Whether [s] begins with [E], as the sentinel ["ERROR"] does. *)
Definition starts_with_E (s : string) : bool :=
  match s with
  | String c _ => Ascii.eqb c "E"%char
  | "" => false
  end.

End Number.

(** ** Strings and the regular expression [/#(.*?)#/g] *)

Definition hash : ascii := "#"%char.

(** [.] matches any character but a line terminator. *)
Definition is_line_terminator (c : ascii) : bool :=
  Ascii.eqb c "010"%char || Ascii.eqb c "013"%char.

(** [(.*?)#] applied at the start of [s]: the lazy group takes as few
    characters as it can, so it ends at the first [#]; it fails when a
    line terminator or the end of the string comes first.  The result is
    the matched text and the rest of the string. *)
Fixpoint lazy_until_hash (s : string) : option (string * string) :=
  match s with
  | "" => None
  | String c s' =>
      if Ascii.eqb c hash then Some (String hash "", s')
      else if is_line_terminator c then None
      else match lazy_until_hash s' with
           | Some (m, rest) => Some (String c m, rest)
           | None => None
           end
  end.

(** The whole expression applied at the start of [s]. *)
Definition match_at (s : string) : option (string * string) :=
  match s with
  | "" => None
  | String c s' =>
      if Ascii.eqb c hash then
        match lazy_until_hash s' with
        | Some (m, rest) => Some (String hash m, rest)
        | None => None
        end
      else None
  end.

(** A string cut by the global expression: the matches, from left to
    right and without overlap, and the characters between them. *)
Inductive piece : Type :=
  | Text (c : ascii)
  | Match (m : string).

(** A failed attempt moves one character on; a match resumes behind
    itself.  Every step consumes a character, so [String.length s] steps
    suffice. *)
Fixpoint scan (fuel : nat) (s : string) : list piece :=
  match fuel, s with
  | S fuel', String c s' =>
      match match_at s with
      | Some (m, rest) => Match m :: scan fuel' rest
      | None => Text c :: scan fuel' s'
      end
  | _, _ => []
  end.

Definition pieces (s : string) : list piece := scan (String.length s) s.

Fixpoint matches (ps : list piece) : list string :=
  match ps with
  | [] => []
  | Text _ :: ps' => matches ps'
  | Match m :: ps' => m :: matches ps'
  end.

(** [s.match(/#(.*?)#/g)]: the array of the matches, [null] without one. *)
Definition String_match (s : string) : option (list string) :=
  match matches (pieces s) with
  | [] => None
  | ms => Some ms
  end.

Fixpoint replace_pieces (ps : list piece) (callback : string -> completion string) : completion string :=
  match ps with
  | [] => Normal ""
  | Text c :: ps' =>
      let* rest := replace_pieces ps' callback in Normal (String c rest)
  | Match m :: ps' =>
      let* replacement := callback m in
      let* rest := replace_pieces ps' callback in
      Normal (replacement ++ rest)
  end.

(** [s.replace(/#(.*?)#/g, callback)]: the callback runs on the matches
    from left to right and what it throws leaves [replace]. *)
Definition String_replace (s : string) (callback : string -> completion string) : completion string :=
  replace_pieces (pieces s) callback.

(** [s.replace(/#/g, '')] *)
Fixpoint remove_hashes (s : string) : string :=
  match s with
  | "" => ""
  | String c s' => if Ascii.eqb c hash then remove_hashes s' else String c (remove_hashes s')
  end.

(** ** Values of cells and variables: [string | number] *)

Inductive value : Type :=
  | Str (s : string)
  | Num (x : spec_float).

(** [String(v)], also [v.toString()]. *)
Definition String_of (v : value) : string :=
  match v with
  | Str s => s
  | Num x => Number.toString x
  end.

(** ** ColumnCalculation *)

Module ColumnCalculation.

Record t : Type := mk {
  expectedVariables : gset string;
  expression : string;
  variables : gmap string value
}.

Definition extractExpectedVariables (expression : string) : gset string :=
  let variables := String_match expression in
  let cleanedVariables :=
    match variables with
    | Some ms => map remove_hashes ms
    | None => []
    end in
  list_to_set cleanedVariables.

Definition new (expression : string) : t :=
  {| expression := expression;
     variables := ∅;
     expectedVariables := extractExpectedVariables expression |}.

Definition withVariables (variables : gmap string value) (this : t) : t :=
  {| expression := expression this;
     variables := variables;
     expectedVariables := expectedVariables this |}.

(** [this.variables[name].toString()] throws a TypeError when the name
    is not a key of [this.variables]. *)
Definition replaceExpressionVariables (this : t) : completion string :=
  String_replace (expression this) (fun m =>
    match variables this !! remove_hashes m with
    | Some v => Normal (String_of v)
    | None => Throw (TypeError "Cannot read properties of undefined")
    end).

Section Calculate.

(** [math.evaluate(text)] as [calculate] sees it: it throws, or it
    returns [undefined] ([None]), or it returns a result [r], given
    here by [String(r)]. *)
Variable math_evaluate : string -> completion (option string).

Definition calculate (this : t) : string :=
  match (let* text := replaceExpressionVariables this in math_evaluate text) with
  | Normal None => "ERROR"
  | Normal (Some shown) => shown
  | Throw _ => "ERROR"
  end.

End Calculate.

End ColumnCalculation.

(** ** Objects keyed by an index

    [Object.keys] and [Object.values] list the integer keys of an object
    in ascending order. *)

Definition Object_keys {V : Type} (o : gmap nat V) : list nat :=
  merge_sort Nat.le (elements (dom o)).

Definition Object_values {V : Type} (o : gmap nat V) : list V :=
  omap (fun key => o !! key) (Object_keys o).

(** [array.reduce(callback, initialValue)] *)
Definition reduce {A B : Type} (callback : B -> A -> B) (initialValue : B) (array : list A) : B :=
  foldl callback initialValue array.

(** ** ColumnAggregations and ColumnAggregator *)

Module ColumnAggregations.

Inductive t : Type := None | Max | Average | Min | Sum.

(** The string of the member, as [{this.operation}] renders it. *)
Definition name (a : t) : string :=
  match a with
  | None => "None"
  | Max => "Max"
  | Average => "Average"
  | Min => "Min"
  | Sum => "Sum"
  end.

Definition is_None (a : t) : bool :=
  match a with
  | None => true
  | _ => false
  end.

End ColumnAggregations.

(** The elements the engine renders: the empty fragment [<></>] and
    [<strong>{operation}: {result}</strong>]. *)
Inductive Element : Type :=
  | Fragment
  | Strong (operation : ColumnAggregations.t) (result : string).

Definition Element_text (e : Element) : string :=
  match e with
  | Fragment => ""
  | Strong operation result => ColumnAggregations.name operation ++ ": " ++ result
  end.

Module ColumnAggregator.

Record t : Type := mk { operation : ColumnAggregations.t }.

Section Calculate.

(** [Number(s)] for a string [s]. *)
Variable StringToNumber : string -> spec_float.

(** [Number(value)] *)
Definition Number_of (v : value) : spec_float :=
  match v with
  | Num x => x
  | Str s => StringToNumber s
  end.

(** Whether [Number(value)] is a number, not NaN. *)
Definition numeric (v : value) : bool :=
  match Number_of v with
  | S754_nan => false
  | _ => true
  end.

Definition greater (max : spec_float) (value : value) : spec_float :=
  if Number.gt (Number_of value) max then Number_of value else max.

Definition smaller (min : spec_float) (value : value) : spec_float :=
  if Number.lt (Number_of value) min then Number_of value else min.

Definition plus (sum : spec_float) (value : value) : spec_float :=
  Number.add (Number_of value) sum.

(** The [try] block of [calculate]: it leaves [result] behind
    ([Some]) or returns the empty fragment from its [default] case
    ([None]). *)
Definition attempt (this : t) (rows : gmap nat value) : completion (option string) :=
  match operation this with
  | ColumnAggregations.Max =>
      let result := Number.toString (reduce greater Number.NegInfinity (Object_values rows)) in
      Normal (Some (if String.eqb result "-Infinity" then "NaN" else result))
  | ColumnAggregations.Min =>
      let result := Number.toString (reduce smaller Number.Infinity (Object_values rows)) in
      Normal (Some (if String.eqb result "Infinity" then "NaN" else result))
  | ColumnAggregations.Sum =>
      Normal (Some (Number.toString (reduce plus Number.zero (Object_values rows))))
  | ColumnAggregations.Average =>
      Normal (Some (Number.toString
        (Number.div (reduce plus Number.zero (Object_values rows))
                    (Number.of_nat (length (Object_values rows))))))
  | ColumnAggregations.None => Normal None
  end.

Definition calculate (this : t) (rows : gmap nat value) : Element :=
  match attempt this rows with
  | Normal None => Fragment
  | Normal (Some result) => Strong (operation this) result
  | Throw _ => Strong (operation this) "ERROR"
  end.

End Calculate.

End ColumnAggregator.

(** ** ColumnData *)

Inductive ColumnType : Type := time | data | calculated | unset.

Definition is_calculated (ty : ColumnType) : bool :=
  match ty with
  | calculated => true
  | _ => false
  end.

(** The raw data of a table: column position, then row index. *)
Abbreviation RawData := (gmap nat (gmap nat value)).

(** The rows object a column holds.  [setRows] stores a reference, so
    after [compile] the rows of the column at position [i] are the very
    object [data[i]] of the table, and a row filled into the column is
    written into the raw data.  A column otherwise holds an object of its
    own.  [compile] refers a column to raw data that exists only. *)
Inductive RowsRef : Type :=
  | OwnRows (rows : gmap nat value)
  | RawRows (position : nat).

Definition read (store : RawData) (ref : RowsRef) : gmap nat value :=
  match ref with
  | OwnRows rows => rows
  | RawRows position => default ∅ (store !! position)
  end.

(** [ref[key] = v] *)
Definition write (store : RawData) (ref : RowsRef) (key : nat) (v : value) : RowsRef * RawData :=
  match ref with
  | OwnRows rows => (OwnRows (<[key := v]> rows), store)
  | RawRows position => (ref, <[position := <[key := v]> (read store ref)]> store)
  end.

Module ColumnData.

Record t : Type := mk {
  columnName : string;
  columnType : ColumnType;
  columnId : string;
  calculation : ColumnCalculation.t;
  rows : RowsRef;
  aggregation : ColumnAggregator.t
}.

Definition new (columnName : string) (columnType : ColumnType) (columnId : string) : t :=
  {| columnName := columnName;
     columnType := columnType;
     columnId := columnId;
     calculation := ColumnCalculation.new "";
     rows := OwnRows ∅;
     aggregation := ColumnAggregator.mk ColumnAggregations.None |}.

Definition withCalculation (calculation : ColumnCalculation.t) (this : t) : t :=
  mk (columnName this) (columnType this) (columnId this) calculation (rows this) (aggregation this).

Definition withAggregation (aggregation : ColumnAggregations.t) (this : t) : t :=
  mk (columnName this) (columnType this) (columnId this) (calculation this) (rows this)
     (ColumnAggregator.mk aggregation).

Definition setRows (rows : RowsRef) (this : t) : t :=
  mk (columnName this) (columnType this) (columnId this) (calculation this) rows (aggregation this).

Section Methods.

Variable math_evaluate : string -> completion (option string).
Variable StringToNumber : string -> spec_float.

(** The column after the call, and the raw data after it. *)
Definition fillCalculatedRow (store : RawData) (this : t) (rowIndex : nat)
    (variables : gmap string value) : t * RawData :=
  let calculation' := ColumnCalculation.withVariables variables (calculation this) in
  let result := ColumnCalculation.calculate math_evaluate calculation' in
  let '(rows', store') := write store (rows this) rowIndex (Str result) in
  (mk (columnName this) (columnType this) (columnId this) calculation' rows' (aggregation this),
   store').

Definition getValue (store : RawData) (this : t) (rowIndex : nat) : string :=
  match read store (rows this) !! rowIndex with
  | Some v => String_of v
  | None => ""
  end.

Definition getAggregation (store : RawData) (this : t) : Element :=
  ColumnAggregator.calculate StringToNumber (aggregation this) (read store (rows this)).

End Methods.

End ColumnData.

(** ** DataTable *)

(** What a cell shows: [string | JSX.Element]. *)
Inductive Cell : Type :=
  | CellText (s : string)
  | CellElement (e : Element).

Module DataTable.

Record t : Type := mk {
  columns : list ColumnData.t;
  data : RawData;
  columnNameToIndexMapping : gmap string nat;
  maxRow : nat;
  isThereColumnAggregations : bool
}.

Definition new (data : RawData) : t :=
  {| data := data;
     columns := [];
     columnNameToIndexMapping := ∅;
     maxRow := 0;
     isThereColumnAggregations := false |}.

(** The loop of [updateColumnNameToIndexMapping] from position [i] on. *)
Fixpoint indexColumns (i : nat) (columns : list ColumnData.t) (mapping : gmap string nat)
    : gmap string nat :=
  match columns with
  | [] => mapping
  | column :: columns' =>
      indexColumns (S i) columns' (<[ColumnData.columnName column := i]> mapping)
  end.

Definition updateColumnNameToIndexMapping (this : t) : t :=
  mk (columns this) (data this) (indexColumns 0 (columns this) ∅) (maxRow this)
     (isThereColumnAggregations this).

Definition addColumns (columns : list ColumnData.t) (this : t) : t :=
  updateColumnNameToIndexMapping
    (mk (DataTable.columns this ++ columns) (data this) (columnNameToIndexMapping this)
        (maxRow this) (isThereColumnAggregations this)).

Definition getRowsToRender (this : t) : nat :=
  if isThereColumnAggregations this then maxRow this + 2 else maxRow this + 1.

(** [Object.keys(rows).reduce((max, current) => Number(current) > max ? Number(current) : max, 0)] *)
Definition greatestKey (rows : gmap nat value) : nat :=
  reduce (fun max current => if Nat.ltb max current then current else max) 0 (Object_keys rows).

(** The body of the first loop of [compile] at position [i]. *)
Definition assignRows (i : nat) (this : t) : t :=
  match data this !! i with
  | Some rows =>
      let newMaxRow := greatestKey rows in
      mk (alter (ColumnData.setRows (RawRows i)) i (columns this))
         (data this)
         (columnNameToIndexMapping this)
         (if Nat.ltb (maxRow this) newMaxRow then newMaxRow else maxRow this)
         (isThereColumnAggregations this)
  | None => this
  end.

Section Methods.

Variable math_evaluate : string -> completion (option string).
Variable StringToNumber : string -> spec_float.

(** [this.columns[columnIndex]] is [undefined] outside the array, and
    a method call on it throws a TypeError. *)
Definition column_at (this : t) (columnIndex : nat) : completion ColumnData.t :=
  match columns this !! columnIndex with
  | Some column => Normal column
  | None => Throw (TypeError "Cannot read properties of undefined")
  end.

Definition getCalculationVariables (this : t) (rowIndex : nat) (column : ColumnData.t)
    : completion (gmap string value) :=
  let expectedVariables := ColumnCalculation.expectedVariables (ColumnData.calculation column) in
  for_each (elements expectedVariables) (fun columnName variables =>
    match columnNameToIndexMapping this !! columnName with
    | Some columnIndex =>
        let* sibling := column_at this columnIndex in
        Normal (<[columnName := Str (ColumnData.getValue (data this) sibling rowIndex)]> variables)
    | None => Normal variables
    end) ∅.

(** [column.fillCalculatedRow(r, this.getCalculationVariables(r, column))]
    for [column], the element of [this.columns] at position [i]. *)
Definition fillRow (i : nat) (r : nat) (this : t) : completion t :=
  match columns this !! i with
  | Some column =>
      let* variables := getCalculationVariables this r column in
      let '(column', data') :=
        ColumnData.fillCalculatedRow math_evaluate (data this) column r variables in
      Normal (mk (<[i := column']> (columns this)) data' (columnNameToIndexMapping this)
                 (maxRow this) (isThereColumnAggregations this))
  | None => Normal this
  end.

(** The body of the second loop of [compile] for the element of
    [this.columns] at position [i]. *)
Definition compileColumn (i : nat) (this : t) : completion t :=
  match columns this !! i with
  | Some column =>
      let this :=
        if ColumnAggregations.is_None (ColumnAggregator.operation (ColumnData.aggregation column))
        then this
        else mk (columns this) (data this) (columnNameToIndexMapping this) (maxRow this) true in
      if is_calculated (ColumnData.columnType column)
      then for_each (seq 0 (S (maxRow this))) (fillRow i) this
      else Normal this
  | None => Normal this
  end.

Definition compile (this : t) : completion t :=
  let this := mk (columns this) (data this) (columnNameToIndexMapping this) 0
                 (isThereColumnAggregations this) in
  let this := foldl (fun this i => assignRows i this) this (seq 0 (length (columns this))) in
  let this := mk (columns this) (data this) (columnNameToIndexMapping this) (maxRow this)
                 false in
  for_each (seq 0 (length (columns this))) compileColumn this.

Definition getValue (this : t) (rowIndex columnIndex : nat) : completion Cell :=
  if Nat.ltb (maxRow this) rowIndex
  then
    let* column := column_at this columnIndex in
    Normal (CellElement (ColumnData.getAggregation StringToNumber (data this) column))
  else
    let* column := column_at this columnIndex in
    Normal (CellText (ColumnData.getValue (data this) column rowIndex)).

End Methods.

End DataTable.

(** ** Tables the engine is used on *)
















Section Settled.

Variable math_evaluate : string -> completion (option string).


End Settled.

(** ** An evaluator for the examples

    On a blank text [math.evaluate] returns [undefined], and on a sum of
    decimal numerals it returns the sum.  [sum_evaluate] does the same on
    these texts and rejects every other text, which [math.evaluate] need
    not do; the examples below use it on blank texts and sums only. *)

Module Example.

Fixpoint trim_left (s : string) : string :=
  match s with
  | String " " s' => trim_left s'
  | _ => s
  end.

(** The numeral at the start of [s], if it is followed by blanks only. *)
Fixpoint numeral (acc : option N) (s : string) : option N :=
  match s with
  | "" => acc
  | String c s' =>
      let d := N_of_ascii c in
      if (48 <=? d)%N && (d <=? 57)%N
      then numeral (Some (10 * default 0%N acc + (d - 48))%N) s'
      else if String.eqb (trim_left s) "" then acc else None
  end.

(** The operands of a sum: the texts between the [+] signs. *)
Fixpoint operands (current : string) (s : string) : list string :=
  match s with
  | "" => [current]
  | String "+" s' => current :: operands "" s'
  | String c s' => operands (current ++ String c "") s'
  end.

Definition sum_evaluate (text : string) : completion (option string) :=
  if String.eqb (trim_left text) "" then Normal None
  else
    match mapM (fun operand => numeral None (trim_left operand)) (operands "" text) with
    | Some ns => Normal (Some (Number.toString (Number.of_Z (Z.of_N (foldr N.add 0%N ns)))))
    | None => Throw EvaluationError
    end.

(** A stand-in for [Number(s)] on strings: the numeral, or NaN. *)
Definition decimal_number (s : string) : spec_float :=
  match numeral None (trim_left s) with
  | Some n => Number.of_Z (Z.of_N n)
  | None => if String.eqb (trim_left s) "" then Number.zero else Number.NaN
  end.

Definition number (z : Z) : value := Num (Number.of_Z z).

(** [{"0": {"0": 10, "1": 20}, "1": {"0": 100, "1": 200}}] with the
    columns Density, Volume and Total. *)
Definition density_volume : DataTable.t :=
  DataTable.addColumns
    [ ColumnData.new "Density" data "Density";
      ColumnData.new "Volume" data "Volume";
      ColumnData.withCalculation (ColumnCalculation.new "#Density# + #Volume#")
        (ColumnData.new "Total" calculated "Total") ]
    (DataTable.new {[ 0 := {[ 0 := number 10; 1 := number 20 ]};
                      1 := {[ 0 := number 100; 1 := number 200 ]} ]}).


(** One data column with rows 0, 1 and 5, and the aggregation given. *)
Definition sparse (aggregation : ColumnAggregations.t) : DataTable.t :=
  DataTable.addColumns
    [ ColumnData.withAggregation aggregation (ColumnData.new "Volume" data "Volume") ]
    (DataTable.new {[ 0 := {[ 0 := number 1; 1 := number 2; 5 := number 3 ]} ]}).

(** One data column and two calculated columns, the second of which
    refers to the first. *)
Definition chained : DataTable.t :=
  DataTable.addColumns
    [ ColumnData.new "Density" data "Density";
      ColumnData.withCalculation (ColumnCalculation.new "#Density# + #Density#")
        (ColumnData.new "Twice" calculated "Twice");
      ColumnData.withAggregation ColumnAggregations.Sum
        (ColumnData.withCalculation (ColumnCalculation.new "#Twice# + 1")
           (ColumnData.new "More" calculated "More")) ]
    (DataTable.new {[ 0 := {[ 0 := number 10; 1 := number 20 ]} ]}).

(** The table after [compile()]. *)
Definition compiled (this : DataTable.t) : DataTable.t :=
  match DataTable.compile sum_evaluate this with
  | Normal this' => this'
  | Throw _ => this
  end.

End Example.

(** ** The characters of an expression *)

(** The number of [#] characters of a text. *)
Fixpoint count_hashes (s : string) : nat :=
  match s with
  | "" => 0
  | String c s' => if Ascii.eqb c hash then S (count_hashes s') else count_hashes s'
  end.

(** Whether a text holds no [#] and no line terminator: the texts that
    the group [(.*?)] takes between two [#]. *)
Fixpoint is_name (s : string) : bool :=
  match s with
  | "" => true
  | String c s' => negb (Ascii.eqb c hash) && negb (is_line_terminator c) && is_name s'
  end.

(** ** Cells of calculated columns *)

Section Calculated.

Variable math_evaluate : string -> completion (option string).


End Calculated.

(** ** The table component of [src/DynamicTable.tsx] *)

(** The initial columns for the data that the component shows. *)
Definition columns : list ColumnData.t :=
  [ ColumnData.new "Time" time "time_col";
    ColumnData.new "Cell Density" data "var_col_1";
    ColumnData.new "Volume" data "var_col_2" ].

Module DynamicTable.

(** [name.replace(/ /g, '_')] *)
Fixpoint replace_spaces (name : string) : string :=
  match name with
  | "" => ""
  | String c name' =>
      String (if Ascii.eqb c " "%char then "_"%char else c) (replace_spaces name')
  end.

(** The state of the component: the values of its three [useState]
    hooks. *)
Record state : Type := mk {
  isNewColumnDialogOpen : bool;
  isEditColumnDialogOpen : bool;
  columnList : list ColumnData.t
}.

Definition initial : state :=
  {| isNewColumnDialogOpen := false;
     isEditColumnDialogOpen := false;
     columnList := columns |}.

(** The state that the handler sets. *)
Definition handleNewColumn (name expression : string) (aggregation : ColumnAggregations.t)
    (s : state) : state :=
  let newColumn :=
    ColumnData.withAggregation aggregation
      (ColumnData.withCalculation (ColumnCalculation.new expression)
         (ColumnData.new name calculated (replace_spaces name))) in
  {| columnList := (columnList s ++ [newColumn])%list;
     isNewColumnDialogOpen := false;
     isEditColumnDialogOpen := isEditColumnDialogOpen s |}.

(** [findIndex] yields -1 when no column has the name; [columnList[-1]]
    is [undefined] and reading its [columnType] throws a TypeError before
    any state is set. *)
Definition handleColumnEdit (oldName newName newExpression : string)
    (aggregation : ColumnAggregations.t) (s : state) : completion state :=
  match list_find (fun column => ColumnData.columnName column = oldName) (columnList s) with
  | Some (editedColumnIndex, edited) =>
      let newColumn :=
        ColumnData.withAggregation aggregation
          (ColumnData.withCalculation (ColumnCalculation.new newExpression)
             (ColumnData.new newName (ColumnData.columnType edited) (replace_spaces newName))) in
      Normal {| columnList := <[editedColumnIndex := newColumn]> (columnList s);
                isNewColumnDialogOpen := isNewColumnDialogOpen s;
                isEditColumnDialogOpen := false |}
  | None => Throw (TypeError "Cannot read properties of undefined")
  end.


End DynamicTable.

(** ** Further tables *)

Module Sample.





Definition with_total : DynamicTable.state :=
  DynamicTable.handleNewColumn "Total" "#Cell Density# + #Volume#" ColumnAggregations.Sum
    DynamicTable.initial.

End Sample.

(** * Properties *)

(** ** The scan of an expression *)

Lemma append_String (c : ascii) (a b : string) : String c a ++ b = String c (a ++ b).
Proof. reflexivity. Qed.

Lemma append_assoc (a b c : string) : (a ++ b) ++ c = a ++ b ++ c.
Proof.
  induction a as [|x a IH]; [reflexivity|].
  rewrite !append_String, IH. reflexivity.
Qed.

Lemma remove_hashes_app (a b : string) :
  remove_hashes (a ++ b) = remove_hashes a ++ remove_hashes b.
Proof.
  induction a as [|c a IH]; simpl; [reflexivity|].
  destruct (Ascii.eqb c hash); simpl; rewrite IH; reflexivity.
Qed.

(** What the lazy group takes holds no [#], and the text it was applied
    to is the group, the closing [#] and the rest. *)
Lemma lazy_until_hash_some (s m rest : string) :
  lazy_until_hash s = Some (m, rest) ->
  exists name, m = name ++ "#" /\ s = name ++ "#" ++ rest /\ remove_hashes name = name.
Proof.
  revert m rest. induction s as [|c s IH]; intros m rest; simpl; [discriminate|].
  destruct (Ascii.eqb c hash) eqn:Hc.
  - intros [= <- <-]. apply Ascii.eqb_eq in Hc as ->. exists "". auto.
  - destruct (is_line_terminator c); [discriminate|].
    destruct (lazy_until_hash s) as [[m' rest']|]; [|discriminate].
    intros [= <- <-]. destruct (IH _ _ eq_refl) as (name & -> & -> & Hn).
    exists (String c name). simpl. rewrite Hc, Hn. auto.
Qed.

Lemma match_at_some (s m rest : string) :
  match_at s = Some (m, rest) ->
  s = m ++ rest /\ m = "#" ++ remove_hashes m ++ "#".
Proof.
  destruct s as [|c s]; simpl; [discriminate|].
  destruct (Ascii.eqb c hash) eqn:Hc; [|discriminate].
  destruct (lazy_until_hash s) as [[m' rest']|] eqn:Hl; [|discriminate].
  intros [= <- <-]. apply Ascii.eqb_eq in Hc as ->.
  destruct (lazy_until_hash_some _ _ _ Hl) as (name & -> & -> & Hn).
  split.
  - rewrite (append_String hash (name ++ "#") rest'), append_assoc. reflexivity.
  - change (remove_hashes (String hash (name ++ "#"))) with (remove_hashes (name ++ "#")).
    rewrite remove_hashes_app, Hn. change (remove_hashes "#") with "".
    rewrite append_assoc. reflexivity.
Qed.

(** Every match of the scan is a part of the scanned text. *)
Lemma scan_matches_within (fuel : nat) (s m : string) :
  In m (matches (scan fuel s)) -> exists before after, s = before ++ m ++ after.
Proof.
  revert s. induction fuel as [|fuel IH]; intros s; simpl; [tauto|].
  destruct s as [|c s]; [simpl; tauto|].
  destruct (match_at (String c s)) as [[m0 rest]|] eqn:Hm.
  - apply match_at_some in Hm as [Hs _]. simpl. intros [<- | Hin].
    + exists "", rest. exact Hs.
    + destruct (IH _ Hin) as (before & after & ->).
      exists (m0 ++ before), after. rewrite Hs. symmetry. apply append_assoc.
  - simpl. intros Hin. destruct (IH _ Hin) as (before & after & ->).
    exists (String c before), after. reflexivity.
Qed.

Lemma scan_matches_shape (fuel : nat) (s m : string) :
  In m (matches (scan fuel s)) -> m = "#" ++ remove_hashes m ++ "#".
Proof.
  revert s. induction fuel as [|fuel IH]; intros s; simpl; [tauto|].
  destruct s as [|c s]; [simpl; tauto|].
  destruct (match_at (String c s)) as [[m0 rest]|] eqn:Hm.
  - apply match_at_some in Hm as [_ Hshape]. simpl. intros [<- | Hin]; eauto.
  - simpl. eauto.
Qed.

Lemma String_match_elem (expression m : string) :
  In m (matches (pieces expression)) <->
  exists ms, String_match expression = Some ms /\ In m ms.
Proof.
  unfold String_match. destruct (matches (pieces expression)) as [|m0 ms] eqn:E.
  - split; [simpl; tauto | intros (? & [=] & _)].
  - split; [eauto | intros (? & [= <-] & H); exact H].
Qed.

(** The expected variables are the matches of the scan without their
    [#] characters. *)
Lemma elem_of_extractExpectedVariables (expression name : string) :
  name ∈ ColumnCalculation.extractExpectedVariables expression <->
  exists m, In m (matches (pieces expression)) /\ remove_hashes m = name.
Proof.
  unfold ColumnCalculation.extractExpectedVariables.
  rewrite elem_of_list_to_set, list_elem_of_In.
  split.
  - destruct (String_match expression) as [ms|] eqn:E; simpl; [|tauto].
    rewrite in_map_iff. intros (m & Hm & Hin). exists m. split; [|exact Hm].
    apply String_match_elem. eauto.
  - intros (m & Hin & Hm). apply String_match_elem in Hin as (ms & -> & Hin).
    apply in_map_iff. eauto.
Qed.

(** ** Substitution *)



(** ** Numbers as strings *)

Lemma digits_head (s : Z) :
  exists c rest, Number.digits s = String c rest /\ Ascii.eqb c "E"%char = false.
Proof.
  unfold Number.digits.
  pose proof (Unsigned.to_uint_nonnil (Z.to_pos s)) as Hnil.
  destruct (Pos.to_uint (Z.to_pos s)); [congruence | | | | | | | | | |];
    simpl; eexists _, _; split; reflexivity.
Qed.

Lemma layout_head (s p : Z) : Number.starts_with_E (Number.layout s p) = false.
Proof.
  unfold Number.layout.
  destruct (digits_head s) as (c & rest & -> & Hc).
  set (k := Z.of_nat (String.length (String c rest))).
  destruct (_ && _); [rewrite append_String; exact Hc|].
  destruct (_ && _).
  { destruct (Z.to_nat (p + k)) as [|n]; simpl; [reflexivity|].
    destruct (Number.split_at n rest) as [a b]. rewrite append_String. exact Hc. }
  destruct (_ && _); [reflexivity|].
  destruct rest; exact Hc.
Qed.

Lemma toString_head (x : spec_float) : Number.starts_with_E (Number.toString x) = false.
Proof.
  assert (Hfinite : forall m e, Number.starts_with_E (Number.finiteToString m e) = false).
  { intros m e. unfold Number.finiteToString.
    destruct (Number.shortest _ _ _ _) as [s p]. apply layout_head. }
  destruct x as [sg|sg| |sg m e]; try destruct sg; try reflexivity.
  apply Hfinite.
Qed.

(** No number is shown as the sentinel. *)
Lemma toString_not_ERROR (x : spec_float) : Number.toString x <> "ERROR".
Proof. intros H. pose proof (toString_head x) as Hx. rewrite H in Hx. discriminate. Qed.

(** ** Enumeration of an object *)

Lemma Object_keys_Permutation {V : Type} (o : gmap nat V) :
  Object_keys o ≡ₚ elements (dom o).
Proof. apply merge_sort_Permutation. Qed.

Lemma elem_of_Object_keys {V : Type} (o : gmap nat V) (key : nat) :
  key ∈ Object_keys o <-> is_Some (o !! key).
Proof. rewrite Object_keys_Permutation, elem_of_elements. apply elem_of_dom. Qed.

Lemma elem_of_Object_values {V : Type} (o : gmap nat V) (key : nat) (v : V) :
  o !! key = Some v -> v ∈ Object_values o.
Proof.
  intros H. apply list_elem_of_omap. exists key. split; [|exact H].
  apply elem_of_Object_keys. eauto.
Qed.

Lemma Object_keys_empty {V : Type} : Object_keys (∅ : gmap nat V) = [].
Proof. unfold Object_keys. rewrite dom_empty_L, elements_empty. reflexivity. Qed.

Lemma Object_values_empty {V : Type} : Object_values (∅ : gmap nat V) = [].
Proof. unfold Object_values. rewrite Object_keys_empty. reflexivity. Qed.

(** The values of an object with two keys, in the order of the keys. *)
Lemma Object_values_pair {V : Type} (a b : nat) (x y : V) :
  a <> b ->
  Object_values ({[a := x; b := y]} : gmap nat V) = [x; y] \/
  Object_values ({[a := x; b := y]} : gmap nat V) = [y; x].
Proof.
  intros Hab. unfold Object_values.
  assert (Hkeys : [a; b] ≡ₚ Object_keys ({[a := x; b := y]} : gmap nat V)).
  { rewrite Object_keys_Permutation, dom_insert_L, dom_singleton_L.
    rewrite elements_union_singleton by set_solver.
    rewrite elements_singleton. reflexivity. }
  apply Permutation_length_2_inv in Hkeys as [-> | ->]; simpl.
  - rewrite lookup_insert_eq, lookup_insert_ne, lookup_singleton_eq by done. auto.
  - rewrite lookup_insert_eq, lookup_insert_ne, lookup_singleton_eq by done. auto.
Qed.

(** ** Aggregation *)

Section Aggregation.

Variable StringToNumber : string -> spec_float.

Local Abbreviation Number_of := (ColumnAggregator.Number_of StringToNumber).
Local Abbreviation plus := (ColumnAggregator.plus StringToNumber).
Local Abbreviation greater := (ColumnAggregator.greater StringToNumber).
Local Abbreviation smaller := (ColumnAggregator.smaller StringToNumber).

Lemma add_NaN_r (x : spec_float) : Number.add x Number.NaN = Number.NaN.
Proof. destruct x; reflexivity. Qed.

Lemma reduce_plus_NaN (values : list value) :
  reduce plus Number.NaN values = Number.NaN.
Proof.
  unfold reduce. induction values as [|v values IH]; simpl; [reflexivity|].
  unfold ColumnAggregator.plus at 2. rewrite add_NaN_r. exact IH.
Qed.

(** One value that is not a number turns the whole sum into NaN. *)
Lemma reduce_plus_not_numeric (values : list value) (v : value) (sum : spec_float) :
  v ∈ values -> Number_of v = Number.NaN -> reduce plus sum values = Number.NaN.
Proof.
  intros Hin Hv. revert sum. induction values as [|w values IH]; intros sum.
  - apply not_elem_of_nil in Hin as [].
  - unfold reduce in *. simpl. apply elem_of_cons in Hin as [<- | Hin].
    + unfold ColumnAggregator.plus at 2. rewrite Hv. apply reduce_plus_NaN.
    + apply IH, Hin.
Qed.

(** A value that is not a number leaves the running maximum and the
    running minimum as they are. *)
Lemma reduce_greater_numeric (values : list value) (max : spec_float) :
  reduce greater max values
  = reduce greater max (filter (fun v => ColumnAggregator.numeric StringToNumber v = true) values).
Proof.
  unfold reduce. revert max. induction values as [|v values IH]; intros max; [reflexivity|].
  rewrite filter_cons. simpl. case_decide as Hv; simpl; [apply IH|].
  rewrite <- IH. f_equal. unfold ColumnAggregator.greater.
  unfold ColumnAggregator.numeric in Hv.
  destruct (Number_of v); try congruence. destruct max; reflexivity.
Qed.

Lemma reduce_smaller_numeric (values : list value) (min : spec_float) :
  reduce smaller min values
  = reduce smaller min (filter (fun v => ColumnAggregator.numeric StringToNumber v = true) values).
Proof.
  unfold reduce. revert min. induction values as [|v values IH]; intros min; [reflexivity|].
  rewrite filter_cons. simpl. case_decide as Hv; simpl; [apply IH|].
  rewrite <- IH. f_equal. unfold ColumnAggregator.smaller.
  unfold ColumnAggregator.numeric in Hv.
  destruct (Number_of v); try congruence. destruct min; reflexivity.
Qed.

End Aggregation.

(** ** Extraction and evaluation of an expression *)








(** ** Aggregation: edge cases and the sentinel *)

(** C5: [Max] and [Min] over no rows show ["NaN"], [Sum] over no rows
    shows ["0"], and [Average] over two rows holding 2 and 4 shows ["3"]. *)
Theorem aggregation_edge_cases (StringToNumber : string -> spec_float) :
  ColumnAggregator.calculate StringToNumber (ColumnAggregator.mk ColumnAggregations.Max) ∅
    = Strong ColumnAggregations.Max "NaN" /\
  ColumnAggregator.calculate StringToNumber (ColumnAggregator.mk ColumnAggregations.Min) ∅
    = Strong ColumnAggregations.Min "NaN" /\
  ColumnAggregator.calculate StringToNumber (ColumnAggregator.mk ColumnAggregations.Sum) ∅
    = Strong ColumnAggregations.Sum "0" /\
  (forall a b : nat, a <> b ->
     ColumnAggregator.calculate StringToNumber (ColumnAggregator.mk ColumnAggregations.Average)
       {[a := Num (Number.of_Z 2); b := Num (Number.of_Z 4)]}
     = Strong ColumnAggregations.Average "3").
Proof.
  unfold ColumnAggregator.calculate, ColumnAggregator.attempt.
  cbn [ColumnAggregator.operation]. rewrite !Object_values_empty.
  split; [reflexivity|]. split; [reflexivity|]. split; [reflexivity|].
  intros a b Hab.
  destruct (Object_values_pair a b (Num (Number.of_Z 2)) (Num (Number.of_Z 4)) Hab) as [-> | ->];
    vm_compute; reflexivity.
Qed.

Lemma aggregation_edge_cases_witness :
  ColumnAggregator.calculate Example.decimal_number (ColumnAggregator.mk ColumnAggregations.Average)
    {[0 := Num (Number.of_Z 2); 1 := Num (Number.of_Z 4)]}
  = Strong ColumnAggregations.Average "3".
Proof.
  apply (proj2 (proj2 (proj2 (aggregation_edge_cases Example.decimal_number))) 0 1).
  discriminate.
Defined.

(** C10: the [try] block of [ColumnAggregator.calculate] never throws
    and the result is never ["ERROR"]; a row value that [Number] turns
    into NaN makes [Sum] and [Average] show ["NaN"], and [Max] and [Min]
    pass over it. *)
Theorem aggregation_never_ERROR (StringToNumber : string -> spec_float)
    (this : ColumnAggregator.t) (rows : gmap nat value) :
  (exists outcome, ColumnAggregator.attempt StringToNumber this rows = Normal outcome) /\
  ColumnAggregator.calculate StringToNumber this rows
    <> Strong (ColumnAggregator.operation this) "ERROR" /\
  (forall key v,
     rows !! key = Some v ->
     ColumnAggregator.Number_of StringToNumber v = Number.NaN ->
     ColumnAggregator.calculate StringToNumber (ColumnAggregator.mk ColumnAggregations.Sum) rows
       = Strong ColumnAggregations.Sum "NaN" /\
     ColumnAggregator.calculate StringToNumber (ColumnAggregator.mk ColumnAggregations.Average) rows
       = Strong ColumnAggregations.Average "NaN") /\
  reduce (ColumnAggregator.greater StringToNumber) Number.NegInfinity (Object_values rows)
    = reduce (ColumnAggregator.greater StringToNumber) Number.NegInfinity
        (filter (fun v => ColumnAggregator.numeric StringToNumber v = true) (Object_values rows)) /\
  reduce (ColumnAggregator.smaller StringToNumber) Number.Infinity (Object_values rows)
    = reduce (ColumnAggregator.smaller StringToNumber) Number.Infinity
        (filter (fun v => ColumnAggregator.numeric StringToNumber v = true) (Object_values rows)).
Proof.
  split; [|split; [|split; [|split]]].
  - unfold ColumnAggregator.attempt. destruct (ColumnAggregator.operation this); eauto.
  - unfold ColumnAggregator.calculate, ColumnAggregator.attempt.
    destruct (ColumnAggregator.operation this); try discriminate.
    + destruct (String.eqb _ _); [discriminate|].
      intros [= H]. exact (toString_not_ERROR _ H).
    + intros [= H]. exact (toString_not_ERROR _ H).
    + destruct (String.eqb _ _); [discriminate|].
      intros [= H]. exact (toString_not_ERROR _ H).
    + intros [= H]. exact (toString_not_ERROR _ H).
  - intros key v Hv Hnan. apply elem_of_Object_values in Hv.
    unfold ColumnAggregator.calculate, ColumnAggregator.attempt. simpl.
    rewrite (reduce_plus_not_numeric StringToNumber _ v _ Hv Hnan). split; reflexivity.
  - apply reduce_greater_numeric.
  - apply reduce_smaller_numeric.
Qed.

Lemma aggregation_never_ERROR_witness :
  ColumnAggregator.calculate Example.decimal_number (ColumnAggregator.mk ColumnAggregations.Sum)
    {[0 := Str "x"; 1 := Num (Number.of_Z 4)]}
    = Strong ColumnAggregations.Sum "NaN" /\
  ColumnAggregator.calculate Example.decimal_number (ColumnAggregator.mk ColumnAggregations.Average)
    {[0 := Str "x"; 1 := Num (Number.of_Z 4)]}
    = Strong ColumnAggregations.Average "NaN".
Proof.
  apply (proj1 (proj2 (proj2 (aggregation_never_ERROR Example.decimal_number
           (ColumnAggregator.mk ColumnAggregations.Sum)
           {[0 := Str "x"; 1 := Num (Number.of_Z 4)]}))) 0 (Str "x")).
  - reflexivity.
  - reflexivity.
Defined.

(** ** Loops *)



(** ** The variables of a calculation *)




(** ** What filling a row changes *)



















Section FillRow.

Variable math_evaluate : string -> completion (option string).



End FillRow.

(** ** The second loop of [compile] *)


Section SecondLoop.

Variable math_evaluate : string -> completion (option string).

Local Abbreviation result variables column :=
  (Str (ColumnCalculation.calculate math_evaluate
     (ColumnCalculation.withVariables variables (ColumnData.calculation column)))).


End SecondLoop.



Section ColumnLoop.

Variable math_evaluate : string -> completion (option string).

Local Abbreviation with_flag b t :=
  (DataTable.mk (DataTable.columns t) (DataTable.data t) (DataTable.columnNameToIndexMapping t)
     (DataTable.maxRow t) b).





End ColumnLoop.

(** ** The first loop of [compile] *)




(** The state after the body of the first loop has run at the
    positions [positions]. *)
Lemma assignRows_fold (positions : list nat) (s : DataTable.t) :
  DataTable.data (foldl (fun this i => DataTable.assignRows i this) s positions)
    = DataTable.data s /\
  DataTable.columnNameToIndexMapping (foldl (fun this i => DataTable.assignRows i this) s positions)
    = DataTable.columnNameToIndexMapping s /\
  DataTable.isThereColumnAggregations (foldl (fun this i => DataTable.assignRows i this) s positions)
    = DataTable.isThereColumnAggregations s /\
  (forall j,
     DataTable.columns (foldl (fun this i => DataTable.assignRows i this) s positions) !! j
     = if decide (j ∈ positions /\ is_Some (DataTable.data s !! j))
       then ColumnData.setRows (RawRows j) <$> DataTable.columns s !! j
       else DataTable.columns s !! j) /\
  DataTable.maxRow (foldl (fun this i => DataTable.assignRows i this) s positions)
    = reduce (fun max current => if Nat.ltb max current then current else max)
        (DataTable.maxRow s)
        (map (fun i => match DataTable.data s !! i with
                       | Some rows => DataTable.greatestKey rows
                       | None => 0
                       end) positions).
Proof.
  revert s. induction positions as [|i positions IH]; intros s.
  - simpl. repeat split; auto.
  - simpl. destruct (IH (DataTable.assignRows i s)) as (Hd & Hm & Hf & Hc & Hx).
    assert (Hs : DataTable.data (DataTable.assignRows i s) = DataTable.data s /\
                 DataTable.columnNameToIndexMapping (DataTable.assignRows i s)
                   = DataTable.columnNameToIndexMapping s /\
                 DataTable.isThereColumnAggregations (DataTable.assignRows i s)
                   = DataTable.isThereColumnAggregations s).
    { unfold DataTable.assignRows. destruct (DataTable.data s !! i); auto. }
    destruct Hs as (Hd1 & Hm1 & Hf1).
    rewrite Hd, Hm, Hf, Hx, Hd1, Hm1, Hf1. repeat split; auto.
    + intros j. rewrite Hc, Hd1.
      assert (Hj : DataTable.columns (DataTable.assignRows i s) !! j
                   = if decide (j = i /\ is_Some (DataTable.data s !! j))
                     then ColumnData.setRows (RawRows j) <$> DataTable.columns s !! j
                     else DataTable.columns s !! j).
      { unfold DataTable.assignRows. destruct (DataTable.data s !! i) as [rows|] eqn:Hi; simpl.
        - destruct (decide (j = i)) as [->|Hne].
          + rewrite list_lookup_alter_eq, decide_True; [reflexivity|]. rewrite Hi. eauto.
          + rewrite list_lookup_alter_ne by congruence.
            rewrite decide_False; [reflexivity|]. tauto.
        - rewrite decide_False; [reflexivity|]. intros [-> [? ?]]. congruence. }
      rewrite Hj.
      destruct (decide (j ∈ positions /\ _)) as [[Hin Hsome]|Hn1];
        destruct (decide (j = i /\ _)) as [[-> Hsome']|Hn2];
        destruct (decide (_ ∈ i :: positions /\ _)) as [[Hin' Hsome'']|Hn3];
        try reflexivity.
      * destruct (DataTable.columns s !! i); reflexivity.
      * exfalso. apply Hn3. split; [left | assumption].
      * exfalso. apply Hn3. split; [right; assumption | assumption].
      * exfalso. apply Hn3. split; [left | assumption].
      * exfalso. apply elem_of_cons in Hin' as [->|Hin']; tauto.
    + f_equal. unfold DataTable.assignRows.
      destruct (DataTable.data s !! i) as [rows|]; simpl; [reflexivity|].
      destruct (Nat.ltb_spec (DataTable.maxRow s) 0); [lia | reflexivity].
Qed.


Section Compile.

(** The table at the start of the second loop of [compile]. *)
Local Abbreviation assigned t :=
  (foldl (fun this i => DataTable.assignRows i this)
     (DataTable.mk (DataTable.columns t) (DataTable.data t)
        (DataTable.columnNameToIndexMapping t) 0 (DataTable.isThereColumnAggregations t))
     (seq 0 (length (DataTable.columns t)))).

Local Abbreviation start t :=
  (DataTable.mk (DataTable.columns (assigned t)) (DataTable.data (assigned t))
     (DataTable.columnNameToIndexMapping (assigned t)) (DataTable.maxRow (assigned t)) false).
















Variable math_evaluate : string -> completion (option string).


(** *** A second run *)







(** *** Tables whose columns may share rows *)







End Compile.


(** ** Tables built with [addColumns] *)




(** ** Reading a compiled table *)

(** C2, as the code has it: [ColumnData.getValue] returns the stored
    value as a string, or the empty string when the row is unset, and
    [DataTable.getValue] returns a cell for every row index and every
    column index below the number of columns, and only for those. *)
Theorem getValue_returns (StringToNumber : string -> spec_float) :
  (forall store column rowIndex,
     (forall v, read store (ColumnData.rows column) !! rowIndex = Some v ->
        ColumnData.getValue store column rowIndex = String_of v) /\
     (read store (ColumnData.rows column) !! rowIndex = None ->
        ColumnData.getValue store column rowIndex = "")) /\
  (forall this rowIndex columnIndex,
     columnIndex < length (DataTable.columns this) <->
     exists shown, DataTable.getValue StringToNumber this rowIndex columnIndex = Normal shown).
Proof.
  split.
  - intros store column rowIndex. unfold ColumnData.getValue.
    split; [intros v -> | intros ->]; reflexivity.
  - intros this rowIndex columnIndex. unfold DataTable.getValue, DataTable.column_at. split.
    + intros H. apply lookup_lt_is_Some_2 in H as [c ->].
      destruct (Nat.ltb _ _); simpl; eauto.
    + intros [shown H]. apply lookup_lt_is_Some.
      destruct (DataTable.columns this !! columnIndex); [eauto|].
      destruct (Nat.ltb _ _); discriminate.
Qed.

Lemma getValue_returns_witness :
  exists shown,
    DataTable.getValue Example.decimal_number (Example.compiled Example.density_volume) 0 2
    = Normal shown.
Proof.
  apply (proj1 (proj2 (getValue_returns Example.decimal_number)
           (Example.compiled Example.density_volume) 0 2)).
  vm_compute. lia.
Defined.

(** Past the last column [DataTable.getValue] throws. *)
Lemma getValue_throws_past_last_column :
  DataTable.compile Example.sum_evaluate Example.density_volume
    = Normal (Example.compiled Example.density_volume) /\
  DataTable.getValue Example.decimal_number (Example.compiled Example.density_volume) 0 3
    = Throw (TypeError "Cannot read properties of undefined").
Proof. split; vm_compute; reflexivity. Qed.

(** C7: in a compiled table a row index above [maxRow] shows the
    aggregation of the column, and a row index up to [maxRow] shows the
    value of the column in that row. *)
Theorem getValue_aggregation_row (math_evaluate : string -> completion (option string))
    (StringToNumber : string -> spec_float) (t0 t : DataTable.t)
    (rowIndex columnIndex : nat) (column : ColumnData.t) :
  DataTable.compile math_evaluate t0 = Normal t ->
  DataTable.columns t !! columnIndex = Some column ->
  (DataTable.maxRow t < rowIndex ->
   DataTable.getValue StringToNumber t rowIndex columnIndex
   = Normal (CellElement (ColumnData.getAggregation StringToNumber (DataTable.data t) column))) /\
  (rowIndex <= DataTable.maxRow t ->
   DataTable.getValue StringToNumber t rowIndex columnIndex
   = Normal (CellText (ColumnData.getValue (DataTable.data t) column rowIndex))).
Proof.
  intros _ Hc. unfold DataTable.getValue, DataTable.column_at. rewrite Hc. split; intros H.
  - apply Nat.ltb_lt in H. rewrite H. reflexivity.
  - apply Nat.ltb_ge in H. rewrite H. reflexivity.
Qed.

Lemma getValue_aggregation_row_witness :
  DataTable.getValue Example.decimal_number (Example.compiled Example.chained) 2 2
    = Normal (CellElement (Strong ColumnAggregations.Sum "62")) /\
  DataTable.getValue Example.decimal_number (Example.compiled Example.chained) 1 2
    = Normal (CellText "41").
Proof.
  destruct (getValue_aggregation_row Example.sum_evaluate Example.decimal_number
              Example.chained (Example.compiled Example.chained) 2 2
              (default (ColumnData.new "" unset "")
                 (DataTable.columns (Example.compiled Example.chained) !! 2)))
    as [Habove _]; [vm_compute; reflexivity | vm_compute; reflexivity |].
  destruct (getValue_aggregation_row Example.sum_evaluate Example.decimal_number
              Example.chained (Example.compiled Example.chained) 1 2
              (default (ColumnData.new "" unset "")
                 (DataTable.columns (Example.compiled Example.chained) !! 2)))
    as [_ Hbelow]; [vm_compute; reflexivity | vm_compute; reflexivity |].
  split.
  - rewrite Habove by (vm_compute; lia). vm_compute. reflexivity.
  - rewrite Hbelow by (vm_compute; lia). vm_compute. reflexivity.
Defined.

(** ** The compile pass *)

(** C4: with Density 10 and 20, Volume 100 and 200 and Total as
    [#Density# + #Volume#], the compiled table shows ["110"] and ["220"]
    in the rows of Total, for every evaluator that evaluates
    ["10 + 100"] to 110 and ["20 + 200"] to 220. *)
Theorem compile_density_volume (math_evaluate : string -> completion (option string))
    (StringToNumber : string -> spec_float) :
  math_evaluate "10 + 100" = Normal (Some "110") ->
  math_evaluate "20 + 200" = Normal (Some "220") ->
  exists t,
    DataTable.compile math_evaluate Example.density_volume = Normal t /\
    DataTable.getValue StringToNumber t 0 2 = Normal (CellText "110") /\
    DataTable.getValue StringToNumber t 1 2 = Normal (CellText "220").
Proof.
  intros H0 H1.
  assert (E : DataTable.compile math_evaluate Example.density_volume
              = DataTable.compile Example.sum_evaluate Example.density_volume).
  { vm_compute. vm_compute in H0, H1. rewrite H0, H1. reflexivity. }
  rewrite E. exists (Example.compiled Example.density_volume).
  repeat split; vm_compute; reflexivity.
Qed.

Lemma compile_density_volume_witness :
  exists t,
    DataTable.compile Example.sum_evaluate Example.density_volume = Normal t /\
    DataTable.getValue Example.decimal_number t 0 2 = Normal (CellText "110") /\
    DataTable.getValue Example.decimal_number t 1 2 = Normal (CellText "220").
Proof.
  apply (compile_density_volume Example.sum_evaluate Example.decimal_number);
    vm_compute; reflexivity.
Defined.



(** A table none of whose columns has an aggregation renders one row
    less. *)
Lemma compile_row_extent_without_aggregation :
  DataTable.maxRow (Example.compiled (Example.sparse ColumnAggregations.None)) = 5 /\
  DataTable.getRowsToRender (Example.compiled (Example.sparse ColumnAggregations.None)) = 6.
Proof. split; vm_compute; reflexivity. Qed.





(** * Further properties of the engine *)

(** ** The scan, match by match *)

Lemma length_append (a b : string) :
  String.length (a ++ b) = String.length a + String.length b.
Proof. induction a as [|c a IH]; [reflexivity|]. rewrite append_String. simpl. rewrite IH. reflexivity. Qed.

Lemma count_hashes_app (a b : string) :
  count_hashes (a ++ b) = count_hashes a + count_hashes b.
Proof.
  induction a as [|c a IH]; [reflexivity|]. rewrite append_String. simpl.
  destruct (Ascii.eqb c hash); rewrite IH; reflexivity.
Qed.

Lemma is_name_remove_hashes (name : string) : is_name name = true -> remove_hashes name = name.
Proof.
  induction name as [|c name IH]; simpl; [reflexivity|].
  destruct (Ascii.eqb c hash); simpl; [discriminate|].
  destruct (is_line_terminator c); simpl; [discriminate|].
  intros H. rewrite (IH H). reflexivity.
Qed.

Lemma append_empty (a : string) : a ++ "" = a.
Proof. induction a as [|c a IH]; [reflexivity|]. rewrite append_String, IH. reflexivity. Qed.

(** A reference without its [#] characters is the name. *)
Lemma remove_hashes_reference (name : string) :
  is_name name = true -> remove_hashes ("#" ++ name ++ "#") = name.
Proof.
  intros H. change ("#" ++ name ++ "#") with (String hash (name ++ "#")).
  change (remove_hashes (String hash (name ++ "#"))) with (remove_hashes (name ++ "#")).
  rewrite remove_hashes_app, (is_name_remove_hashes name H).
  change (remove_hashes "#") with "". apply append_empty.
Qed.

Lemma scan_empty (fuel : nat) : scan fuel "" = [].
Proof. destruct fuel; reflexivity. Qed.

(** The scan does not depend on the steps it is given beyond the length
    of the text. *)
Lemma scan_fuel (fuel fuel' : nat) (s : string) :
  String.length s <= fuel -> String.length s <= fuel' -> scan fuel s = scan fuel' s.
Proof.
  revert fuel' s. induction fuel as [|fuel IH]; intros fuel' s Hf Hf'.
  - destruct s; simpl in Hf; [|lia]. rewrite (scan_empty fuel'). reflexivity.
  - destruct s as [|c s]; [rewrite (scan_empty fuel'); reflexivity|].
    destruct fuel' as [|fuel']; simpl in Hf, Hf'; [lia|].
    cbn [scan]. destruct (match_at (String c s)) as [[m rest]|] eqn:Hm.
    + f_equal. apply match_at_some in Hm as [Hs Hshape].
      assert (Hlen : String.length rest < String.length (String c s)).
      { rewrite Hs, Hshape, append_String, length_append. simpl. lia. }
      simpl in Hlen. apply IH; lia.
    + f_equal. apply IH; lia.
Qed.

Lemma pieces_text (c : ascii) (s : string) :
  match_at (String c s) = None -> pieces (String c s) = Text c :: pieces s.
Proof. intros H. unfold pieces. cbn [String.length scan]. rewrite H. reflexivity. Qed.

Lemma pieces_match (s m rest : string) :
  match_at s = Some (m, rest) -> pieces s = Match m :: pieces rest.
Proof.
  intros H. unfold pieces. destruct s as [|c s]; [discriminate|].
  cbn [String.length scan]. rewrite H. f_equal.
  apply match_at_some in H as [Hs Hshape].
  apply scan_fuel; [|lia].
  assert (Hlen : String.length (String c s) = String.length (m ++ rest)) by (rewrite <- Hs; reflexivity).
  rewrite Hshape, append_String, length_append in Hlen. simpl in Hlen. lia.
Qed.

Lemma lazy_until_hash_name (name rest : string) :
  is_name name = true -> lazy_until_hash (name ++ "#" ++ rest) = Some (name ++ "#", rest).
Proof.
  induction name as [|c name IH]; [reflexivity|].
  rewrite (append_String c name), (append_String c name). simpl.
  destruct (Ascii.eqb c hash); simpl; [discriminate|].
  destruct (is_line_terminator c); simpl; [discriminate|].
  intros H. rewrite (IH H). reflexivity.
Qed.

Lemma match_at_name (name rest : string) :
  is_name name = true ->
  match_at ("#" ++ name ++ "#" ++ rest) = Some ("#" ++ name ++ "#", rest).
Proof.
  intros H.
  change ("#" ++ name ++ "#" ++ rest) with (String hash (name ++ "#" ++ rest)).
  change ("#" ++ name ++ "#") with (String hash (name ++ "#")).
  simpl. rewrite (lazy_until_hash_name name rest H). reflexivity.
Qed.

Lemma match_at_no_hash (c : ascii) (s : string) :
  Ascii.eqb c hash = false -> match_at (String c s) = None.
Proof. intros H. simpl. rewrite H. reflexivity. Qed.

(** The text before the first [#] is copied and holds no match. *)
Lemma pieces_prefix (before rest : string) (callback : string -> completion string) :
  count_hashes before = 0 ->
  matches (pieces (before ++ rest)) = matches (pieces rest) /\
  replace_pieces (pieces (before ++ rest)) callback
  = let* text := replace_pieces (pieces rest) callback in Normal (before ++ text).
Proof.
  induction before as [|c before IH]; simpl.
  - intros _. split; [reflexivity|]. destruct (replace_pieces _ _); reflexivity.
  - destruct (Ascii.eqb c hash) eqn:Hc; [discriminate|]. intros H.
    destruct (IH H) as [IHm IHr].
    rewrite append_String, (pieces_text _ _ (match_at_no_hash c _ Hc)). simpl.
    split; [exact IHm|]. rewrite IHr.
    destruct (replace_pieces (pieces rest) callback); reflexivity.
Qed.

(** A text with fewer than two [#] holds no match. *)
Lemma matches_fewer_than_two (expression : string) :
  count_hashes expression < 2 -> matches (pieces expression) = [].
Proof.
  intros H. destruct (matches (pieces expression)) as [|m ms] eqn:E; [reflexivity|].
  assert (Hin : In m (matches (pieces expression))) by (rewrite E; left; reflexivity).
  destruct (scan_matches_within _ _ _ Hin) as (before & after & Hs).
  pose proof (scan_matches_shape _ _ _ Hin) as Hshape.
  rewrite Hs, Hshape, !count_hashes_app in H. simpl in H. lia.
Qed.

(** Without a match, [replace] returns the text it was called on. *)
Lemma replace_pieces_no_match (fuel : nat) (s : string) (callback : string -> completion string) :
  String.length s <= fuel -> matches (scan fuel s) = [] ->
  replace_pieces (scan fuel s) callback = Normal s.
Proof.
  revert s. induction fuel as [|fuel IH]; intros s Hlen.
  - destruct s; simpl in Hlen; [reflexivity | lia].
  - destruct s as [|c s]; [reflexivity|]. simpl in Hlen. cbn [scan].
    destruct (match_at (String c s)) as [[m rest]|]; simpl; [discriminate|].
    intros H. rewrite (IH s) by (lia || exact H). reflexivity.
Qed.


(** X1: an expression with fewer than two [#] characters has no
    expected variables. *)
Theorem extractExpectedVariables_fewer_than_two_hashes (expression : string) :
  count_hashes expression < 2 ->
  ColumnCalculation.extractExpectedVariables expression = ∅.
Proof.
  intros H. unfold ColumnCalculation.extractExpectedVariables, String_match.
  rewrite (matches_fewer_than_two expression H). reflexivity.
Qed.

Lemma extractExpectedVariables_fewer_than_two_hashes_witness :
  ColumnCalculation.extractExpectedVariables "2 * #Volume" = ∅.
Proof.
  apply (extractExpectedVariables_fewer_than_two_hashes "2 * #Volume").
  vm_compute. lia.
Defined.

(** X2: the first reference of an expression is found, and the
    extraction goes on behind it: when [before] holds no [#] and [name]
    holds no [#] and no line terminator, the expected variables of
    [before#name#after] are [name] and the expected variables of
    [after]. *)
Theorem extractExpectedVariables_first_reference (before name after : string) :
  count_hashes before = 0 -> is_name name = true ->
  ColumnCalculation.extractExpectedVariables (before ++ "#" ++ name ++ "#" ++ after)
  = {[name]} ∪ ColumnCalculation.extractExpectedVariables after.
Proof.
  intros Hbefore Hname.
  assert (Hm : matches (pieces (before ++ "#" ++ name ++ "#" ++ after))
               = ("#" ++ name ++ "#") :: matches (pieces after)).
  { rewrite (proj1 (pieces_prefix before _ Normal Hbefore)).
    rewrite (pieces_match _ _ _ (match_at_name name after Hname)). reflexivity. }
  pose proof (remove_hashes_reference name Hname) as Hclean.
  apply set_eq. intros x.
  rewrite elem_of_union, elem_of_singleton, !elem_of_extractExpectedVariables, Hm. split.
  - intros (m & [<- | Hin] & <-); [left; exact Hclean | right; eauto].
  - intros [-> | (m & Hin & <-)].
    + exists ("#" ++ name ++ "#"). split; [left; reflexivity | exact Hclean].
    + exists m. split; [right; exact Hin | reflexivity].
Qed.

Lemma extractExpectedVariables_first_reference_witness :
  ColumnCalculation.extractExpectedVariables ("2 * " ++ "#" ++ "Cell Density" ++ "#" ++ " + #Volume#")
  = {["Cell Density"]} ∪ ColumnCalculation.extractExpectedVariables " + #Volume#".
Proof.
  apply (extractExpectedVariables_first_reference "2 * " "Cell Density" " + #Volume#");
    reflexivity.
Defined.

Lemma lazy_until_hash_is_name (s m rest : string) :
  lazy_until_hash s = Some (m, rest) -> is_name (remove_hashes m) = true.
Proof.
  revert m rest. induction s as [|c s IH]; intros m rest; simpl; [discriminate|].
  destruct (Ascii.eqb c hash) eqn:Hc.
  - intros [= <- <-]. reflexivity.
  - destruct (is_line_terminator c) eqn:Ht; [discriminate|].
    destruct (lazy_until_hash s) as [[m' rest']|]; [|discriminate].
    intros [= <- <-]. simpl. rewrite Hc. simpl. rewrite Hc, Ht. simpl. eapply IH. reflexivity.
Qed.

Lemma scan_matches_is_name (fuel : nat) (s m : string) :
  In m (matches (scan fuel s)) -> is_name (remove_hashes m) = true.
Proof.
  revert s. induction fuel as [|fuel IH]; intros s; simpl; [tauto|].
  destruct s as [|c s]; [simpl; tauto|].
  destruct (match_at (String c s)) as [[m0 rest]|] eqn:Hm; simpl; [|eauto].
  intros [<- | Hin]; [|eauto].
  simpl in Hm. destruct (Ascii.eqb c hash) eqn:Hc; [|discriminate].
  destruct (lazy_until_hash s) as [[m' rest']|] eqn:Hl; [|discriminate].
  injection Hm as <- <-. simpl. apply (lazy_until_hash_is_name _ _ _ Hl).
Qed.

(** X3: no expected variable holds a [#] or a line terminator, and
    removing the [#] characters from one changes nothing. *)
Theorem extractExpectedVariables_names (expression name : string) :
  name ∈ ColumnCalculation.extractExpectedVariables expression ->
  is_name name = true /\ count_hashes name = 0 /\ remove_hashes name = name.
Proof.
  intros Hin. apply elem_of_extractExpectedVariables in Hin as (m & Hin & <-).
  pose proof (scan_matches_is_name _ _ _ Hin) as Hname.
  split; [exact Hname|]. split; [|apply is_name_remove_hashes, Hname].
  revert Hname. generalize (remove_hashes m). clear.
  induction s as [|c s IH]; simpl; [reflexivity|].
  destruct (Ascii.eqb c hash); simpl; [discriminate|].
  destruct (is_line_terminator c); simpl; [discriminate | exact IH].
Qed.

Lemma extractExpectedVariables_names_witness :
  is_name "Cell Density" = true /\ count_hashes "Cell Density" = 0 /\
  remove_hashes "Cell Density" = "Cell Density".
Proof.
  apply (extractExpectedVariables_names "#Cell Density# * #Volume#" "Cell Density").
  vm_compute. reflexivity.
Defined.

(** ** Substitution, match by match *)

(** X4: the substitution returns an expression with fewer than two [#]
    characters as it is, whatever the variables. *)
Theorem replaceExpressionVariables_without_reference (this : ColumnCalculation.t) :
  count_hashes (ColumnCalculation.expression this) < 2 ->
  ColumnCalculation.replaceExpressionVariables this
  = Normal (ColumnCalculation.expression this).
Proof.
  intros H. unfold ColumnCalculation.replaceExpressionVariables, String_replace, pieces.
  apply replace_pieces_no_match; [lia|]. apply (matches_fewer_than_two _ H).
Qed.

Lemma replaceExpressionVariables_without_reference_witness :
  ColumnCalculation.replaceExpressionVariables (ColumnCalculation.new "10 # 2") = Normal "10 # 2".
Proof.
  apply (replaceExpressionVariables_without_reference (ColumnCalculation.new "10 # 2")).
  vm_compute. lia.
Defined.

(** X5: the first reference of an expression is replaced by the string
    of its variable, and the substitution goes on behind it: the text
    put in is not scanned again. *)
Theorem replaceExpressionVariables_first_reference (variables : gmap string value)
    (before name after : string) (v : value) :
  count_hashes before = 0 -> is_name name = true -> variables !! name = Some v ->
  ColumnCalculation.replaceExpressionVariables
    (ColumnCalculation.withVariables variables
       (ColumnCalculation.new (before ++ "#" ++ name ++ "#" ++ after)))
  = let* text := ColumnCalculation.replaceExpressionVariables
                   (ColumnCalculation.withVariables variables (ColumnCalculation.new after)) in
    Normal (before ++ String_of v ++ text).
Proof.
  intros Hbefore Hname Hv.
  unfold ColumnCalculation.replaceExpressionVariables, String_replace. simpl.
  set (callback := fun m => _).
  rewrite (proj2 (pieces_prefix before _ callback Hbefore)).
  rewrite (pieces_match _ _ _ (match_at_name name after Hname)). simpl.
  assert (Hcall : callback ("#" ++ name ++ "#") = Normal (String_of v)).
  { subst callback. cbv beta. rewrite (remove_hashes_reference name Hname), Hv. reflexivity. }
  rewrite Hcall. simpl.
  destruct (replace_pieces (pieces after) callback); reflexivity.
Qed.

Lemma replaceExpressionVariables_first_reference_witness :
  ColumnCalculation.replaceExpressionVariables
    (ColumnCalculation.withVariables {["A" := Str "#B#"; "B" := Str "2"]}
       (ColumnCalculation.new ("1 + " ++ "#" ++ "A" ++ "#" ++ " * #B#")))
  = let* text := ColumnCalculation.replaceExpressionVariables
                   (ColumnCalculation.withVariables {["A" := Str "#B#"; "B" := Str "2"]}
                      (ColumnCalculation.new " * #B#")) in
    Normal ("1 + " ++ String_of (Str "#B#") ++ text).
Proof.
  apply (replaceExpressionVariables_first_reference {["A" := Str "#B#"; "B" := Str "2"]}
           "1 + " "A" " * #B#" (Str "#B#")); reflexivity.
Defined.



(** ** Aggregation: what the rows are compared with *)

Lemma elem_of_Object_values_inv {V : Type} (o : gmap nat V) (v : V) :
  v ∈ Object_values o -> exists key, o !! key = Some v.
Proof.
  unfold Object_values. intros H. apply list_elem_of_omap in H as (key & _ & Hkey). eauto.
Qed.

Lemma Object_values_singleton {V : Type} (key : nat) (v : V) :
  Object_values ({[key := v]} : gmap nat V) = [v].
Proof.
  unfold Object_values.
  assert (Hkeys : [key] ≡ₚ Object_keys ({[key := v]} : gmap nat V)).
  { rewrite Object_keys_Permutation, dom_singleton_L, elements_singleton. reflexivity. }
  apply Permutation_singleton_l in Hkeys. rewrite <- Hkeys. simpl.
  rewrite lookup_singleton_eq. reflexivity.
Qed.

(** The order of the numbers: [<] is transitive, and two numbers
    neither of which is below the next leave the first not below the
    last, unless the one in the middle is NaN. *)
Lemma SFltb_trans (a b c : spec_float) :
  SFltb a b = true -> SFltb b c = true -> SFltb a c = true.
Proof.
  unfold SFltb, SFcompare.
  destruct a as [sa|sa| |sa ma ea], b as [sb|sb| |sb mb eb], c as [sc|sc| |sc mc ec];
    try destruct sa; try destruct sb; try destruct sc; try (intros; easy);
    change (Pos.compare_cont Eq) with Pos.compare;
    repeat match goal with
           | |- context [Z.compare ?x ?y] => destruct (Z.compare_spec x y)
           | |- context [Pos.compare ?x ?y] => destruct (Pos.compare_spec x y)
           end; simpl; try (intros; easy); intros; lia.
Qed.

Lemma SFltb_not_trans (a b c : spec_float) :
  b <> S754_nan -> SFltb a b = false -> SFltb b c = false -> SFltb a c = false.
Proof.
  unfold SFltb, SFcompare.
  destruct a as [sa|sa| |sa ma ea], b as [sb|sb| |sb mb eb], c as [sc|sc| |sc mc ec];
    try destruct sa; try destruct sb; try destruct sc; try (intros; easy);
    change (Pos.compare_cont Eq) with Pos.compare;
    repeat match goal with
           | |- context [Z.compare ?x ?y] => destruct (Z.compare_spec x y)
           | |- context [Pos.compare ?x ?y] => destruct (Pos.compare_spec x y)
           end; simpl; try (intros; easy); intros; lia.
Qed.

Lemma SFltb_nan_r (a : spec_float) : SFltb a S754_nan = false.
Proof. destruct a; reflexivity. Qed.

Section Extremes.

Variable StringToNumber : string -> spec_float.

Local Abbreviation Number_of := (ColumnAggregator.Number_of StringToNumber).
Local Abbreviation greater := (ColumnAggregator.greater StringToNumber).
Local Abbreviation smaller := (ColumnAggregator.smaller StringToNumber).

(** The running maximum is a number that no value seen exceeds, and it
    is the start value or the number of a value seen. *)
Lemma reduce_greater_bound (values : list value) (max : spec_float) :
  max <> S754_nan ->
  reduce greater max values <> S754_nan /\
  Number.gt max (reduce greater max values) = false /\
  (forall v, v ∈ values -> Number.gt (Number_of v) (reduce greater max values) = false) /\
  (reduce greater max values = max \/
   exists v, v ∈ values /\ Number_of v = reduce greater max values).
Proof.
  unfold reduce, Number.gt. revert max.
  induction values as [|v values IH]; intros max Hmax; simpl.
  - split; [exact Hmax|]. split.
    { destruct max as [s|s| |s m e]; try destruct s; try reflexivity; try congruence.
      - unfold SFltb, SFcompare. rewrite Z.compare_refl.
        change (Pos.compare_cont Eq m m) with (Pos.compare m m). rewrite Pos.compare_refl. reflexivity.
      - unfold SFltb, SFcompare. rewrite Z.compare_refl.
        change (Pos.compare_cont Eq m m) with (Pos.compare m m). rewrite Pos.compare_refl. reflexivity. }
    split; [|auto]. intros v Hv. inversion Hv.
  - set (max' := greater max v).
    assert (Hmax' : max' <> S754_nan).
    { subst max'. unfold ColumnAggregator.greater, Number.gt.
      destruct (SFltb max (Number_of v)) eqn:Hlt; [|exact Hmax].
      intros Hnan. rewrite Hnan, SFltb_nan_r in Hlt. discriminate. }
    destruct (IH max' Hmax') as (Hnan & Hge & Hall & Hat).
    set (m := foldl greater max' values) in *. clearbody m.
    subst max'. unfold ColumnAggregator.greater, Number.gt in Hge, Hat |- *.
    destruct (SFltb max (Number_of v)) eqn:Hlt.
    + split; [exact Hnan|]. split; [|split].
      * destruct (SFltb m max) eqn:Hlt'; [|reflexivity].
        rewrite (SFltb_trans _ _ _ Hlt' Hlt) in Hge. discriminate.
      * intros w Hw. apply elem_of_cons in Hw as [->|Hw]; [exact Hge | apply Hall, Hw].
      * right. destruct Hat as [-> | (w & Hw & Hat)].
        -- exists v. split; [left | reflexivity].
        -- exists w. split; [right; exact Hw | exact Hat].
    + split; [exact Hnan|]. split; [exact Hge|]. split.
      * intros w Hw. apply elem_of_cons in Hw as [->|Hw]; [|apply Hall, Hw].
        apply (SFltb_not_trans _ max); assumption.
      * destruct Hat as [Hat | (w & Hw & Hat)]; [left; exact Hat|].
        right. exists w. split; [right; exact Hw | exact Hat].
Qed.

Lemma reduce_smaller_bound (values : list value) (min : spec_float) :
  min <> S754_nan ->
  reduce smaller min values <> S754_nan /\
  Number.lt min (reduce smaller min values) = false /\
  (forall v, v ∈ values -> Number.lt (Number_of v) (reduce smaller min values) = false) /\
  (reduce smaller min values = min \/
   exists v, v ∈ values /\ Number_of v = reduce smaller min values).
Proof.
  unfold reduce, Number.lt. revert min.
  induction values as [|v values IH]; intros min Hmin; simpl.
  - split; [exact Hmin|]. split.
    { destruct min as [s|s| |s m e]; try destruct s; try reflexivity; try congruence.
      - unfold SFltb, SFcompare. rewrite Z.compare_refl.
        change (Pos.compare_cont Eq m m) with (Pos.compare m m). rewrite Pos.compare_refl. reflexivity.
      - unfold SFltb, SFcompare. rewrite Z.compare_refl.
        change (Pos.compare_cont Eq m m) with (Pos.compare m m). rewrite Pos.compare_refl. reflexivity. }
    split; [|auto]. intros v Hv. inversion Hv.
  - set (min' := smaller min v).
    assert (Hmin' : min' <> S754_nan).
    { subst min'. unfold ColumnAggregator.smaller, Number.lt.
      destruct (SFltb (Number_of v) min) eqn:Hlt; [|exact Hmin].
      intros Hnan. rewrite Hnan in Hlt. discriminate. }
    destruct (IH min' Hmin') as (Hnan & Hge & Hall & Hat).
    set (m := foldl smaller min' values) in *. clearbody m.
    subst min'. unfold ColumnAggregator.smaller, Number.lt in Hge, Hat |- *.
    destruct (SFltb (Number_of v) min) eqn:Hlt.
    + split; [exact Hnan|]. split; [|split].
      * destruct (SFltb min m) eqn:Hlt'; [|reflexivity].
        rewrite (SFltb_trans _ _ _ Hlt Hlt') in Hge. discriminate.
      * intros w Hw. apply elem_of_cons in Hw as [->|Hw]; [exact Hge | apply Hall, Hw].
      * right. destruct Hat as [-> | (w & Hw & Hat)].
        -- exists v. split; [left | reflexivity].
        -- exists w. split; [right; exact Hw | exact Hat].
    + split; [exact Hnan|]. split; [exact Hge|]. split.
      * intros w Hw. apply elem_of_cons in Hw as [->|Hw]; [|apply Hall, Hw].
        apply (SFltb_not_trans _ min); assumption.
      * destruct Hat as [Hat | (w & Hw & Hat)]; [left; exact Hat|].
        right. exists w. split; [right; exact Hw | exact Hat].
Qed.

(** Nothing above the start value leaves the start value. *)
Lemma reduce_greater_floor (values : list value) (max : spec_float) :
  (forall v, v ∈ values -> Number.gt (Number_of v) max = false) ->
  reduce greater max values = max.
Proof.
  unfold reduce. induction values as [|v values IH]; intros H; simpl; [reflexivity|].
  unfold ColumnAggregator.greater at 2. rewrite (H v) by left.
  apply IH. intros w Hw. apply H. right. exact Hw.
Qed.

Lemma reduce_smaller_ceiling (values : list value) (min : spec_float) :
  (forall v, v ∈ values -> Number.lt (Number_of v) min = false) ->
  reduce smaller min values = min.
Proof.
  unfold reduce. induction values as [|v values IH]; intros H; simpl; [reflexivity|].
  unfold ColumnAggregator.smaller at 2. rewrite (H v) by left.
  apply IH. intros w Hw. apply H. right. exact Hw.
Qed.

End Extremes.

(** X7: [Max] shows ["NaN"] when no row holds a number above
    -Infinity, [Min] when no row holds a number below Infinity, and
    [Average] when there is no row at all. *)
Theorem aggregation_without_comparable_rows (StringToNumber : string -> spec_float) :
  ColumnAggregator.calculate StringToNumber (ColumnAggregator.mk ColumnAggregations.Average) ∅
    = Strong ColumnAggregations.Average "NaN" /\
  forall rows : gmap nat value,
    ((forall key v, rows !! key = Some v ->
        Number.gt (ColumnAggregator.Number_of StringToNumber v) Number.NegInfinity = false) ->
     ColumnAggregator.calculate StringToNumber (ColumnAggregator.mk ColumnAggregations.Max) rows
       = Strong ColumnAggregations.Max "NaN") /\
    ((forall key v, rows !! key = Some v ->
        Number.lt (ColumnAggregator.Number_of StringToNumber v) Number.Infinity = false) ->
     ColumnAggregator.calculate StringToNumber (ColumnAggregator.mk ColumnAggregations.Min) rows
       = Strong ColumnAggregations.Min "NaN").
Proof.
  split.
  { unfold ColumnAggregator.calculate, ColumnAggregator.attempt. simpl.
    rewrite Object_values_empty. reflexivity. }
  intros rows. unfold ColumnAggregator.calculate, ColumnAggregator.attempt. simpl. split; intros H.
  - rewrite reduce_greater_floor; [reflexivity|].
    intros v Hv. apply elem_of_Object_values_inv in Hv as [key Hkey]. eauto.
  - rewrite reduce_smaller_ceiling; [reflexivity|].
    intros v Hv. apply elem_of_Object_values_inv in Hv as [key Hkey]. eauto.
Qed.

Lemma aggregation_without_comparable_rows_witness :
  ColumnAggregator.calculate Example.decimal_number (ColumnAggregator.mk ColumnAggregations.Max)
    {[0 := Str "n/a"; 3 := Num Number.NegInfinity]}
  = Strong ColumnAggregations.Max "NaN".
Proof.
  apply (proj1 (proj2 (aggregation_without_comparable_rows Example.decimal_number)
           {[0 := Str "n/a"; 3 := Num Number.NegInfinity]})).
  intros key v Hv.
  destruct (decide (key = 0)) as [->|H0].
  - rewrite lookup_insert_eq in Hv. injection Hv as <-. reflexivity.
  - rewrite lookup_insert_ne in Hv by congruence.
    apply lookup_singleton_Some in Hv as [_ <-]. reflexivity.
Defined.

(** X8: the number that [Max] shows is the number of one of the rows
    and no row holds a number above it; when no row holds a number
    above -Infinity it is -Infinity, shown as ["NaN"].  Likewise [Min],
    with a number below and Infinity. *)
Theorem aggregation_extremes (StringToNumber : string -> spec_float) (rows : gmap nat value) :
  (exists max,
     ColumnAggregator.calculate StringToNumber (ColumnAggregator.mk ColumnAggregations.Max) rows
       = Strong ColumnAggregations.Max
           (if String.eqb (Number.toString max) "-Infinity" then "NaN" else Number.toString max) /\
     (forall key v, rows !! key = Some v ->
        Number.gt (ColumnAggregator.Number_of StringToNumber v) max = false) /\
     (max = Number.NegInfinity \/
      exists key v, rows !! key = Some v /\ ColumnAggregator.Number_of StringToNumber v = max)) /\
  (exists min,
     ColumnAggregator.calculate StringToNumber (ColumnAggregator.mk ColumnAggregations.Min) rows
       = Strong ColumnAggregations.Min
           (if String.eqb (Number.toString min) "Infinity" then "NaN" else Number.toString min) /\
     (forall key v, rows !! key = Some v ->
        Number.lt (ColumnAggregator.Number_of StringToNumber v) min = false) /\
     (min = Number.Infinity \/
      exists key v, rows !! key = Some v /\ ColumnAggregator.Number_of StringToNumber v = min)).
Proof.
  split.
  - destruct (reduce_greater_bound StringToNumber (Object_values rows) Number.NegInfinity)
      as (_ & _ & Hall & Hat); [discriminate|].
    eexists. split; [reflexivity|]. split.
    + intros key v Hv. apply Hall. eapply elem_of_Object_values, Hv.
    + destruct Hat as [Hat | (v & Hv & Hat)]; [left; exact Hat|].
      right. apply elem_of_Object_values_inv in Hv as [key Hkey]. eauto.
  - destruct (reduce_smaller_bound StringToNumber (Object_values rows) Number.Infinity)
      as (_ & _ & Hall & Hat); [discriminate|].
    eexists. split; [reflexivity|]. split.
    + intros key v Hv. apply Hall. eapply elem_of_Object_values, Hv.
    + destruct Hat as [Hat | (v & Hv & Hat)]; [left; exact Hat|].
      right. apply elem_of_Object_values_inv in Hv as [key Hkey]. eauto.
Qed.

(** X9: [Sum] over a single row shows the number of that row. *)
Theorem aggregation_sum_single_row (StringToNumber : string -> spec_float) (key : nat) (v : value) :
  ColumnAggregator.calculate StringToNumber (ColumnAggregator.mk ColumnAggregations.Sum)
    {[key := v]}
  = Strong ColumnAggregations.Sum (Number.toString (ColumnAggregator.Number_of StringToNumber v)).
Proof.
  unfold ColumnAggregator.calculate, ColumnAggregator.attempt. simpl.
  rewrite Object_values_singleton. unfold reduce. simpl. unfold ColumnAggregator.plus.
  destruct (ColumnAggregator.Number_of StringToNumber v) as [s|s| |s m e];
    try destruct s; reflexivity.
Qed.

(** ** What [compile] leaves in the cells *)




Section Cells.

Variable math_evaluate : string -> completion (option string).





End Cells.


Section CompiledCells.

(** The table at the start of the second loop of [compile]. *)
Local Abbreviation assigned t :=
  (foldl (fun this i => DataTable.assignRows i this)
     (DataTable.mk (DataTable.columns t) (DataTable.data t)
        (DataTable.columnNameToIndexMapping t) 0 (DataTable.isThereColumnAggregations t))
     (seq 0 (length (DataTable.columns t)))).

Local Abbreviation start t :=
  (DataTable.mk (DataTable.columns (assigned t)) (DataTable.data (assigned t))
     (DataTable.columnNameToIndexMapping (assigned t)) (DataTable.maxRow (assigned t)) false).


Variable math_evaluate : string -> completion (option string).


End CompiledCells.













(** ** The name lookup *)





(** X17: adding columns in two calls is adding them in one: the
    lookup is rebuilt from the whole column list each time. *)
Theorem addColumns_twice (first second : list ColumnData.t) (t : DataTable.t) :
  DataTable.addColumns second (DataTable.addColumns first t)
  = DataTable.addColumns (first ++ second) t.
Proof.
  unfold DataTable.addColumns, DataTable.updateColumnNameToIndexMapping. simpl.
  rewrite <- app_assoc. reflexivity.
Qed.

(** ** The handlers of the table component *)


Lemma handleColumnEdit_found (oldName newName newExpression : string)
    (aggregation : ColumnAggregations.t) (s : DynamicTable.state) (i : nat) (c : ColumnData.t) :
  DynamicTable.columnList s !! i = Some c ->
  ColumnData.columnName c = oldName ->
  (forall k c', DynamicTable.columnList s !! k = Some c' -> k < i ->
                ColumnData.columnName c' <> oldName) ->
  DynamicTable.handleColumnEdit oldName newName newExpression aggregation s
  = Normal (DynamicTable.mk (DynamicTable.isNewColumnDialogOpen s) false
      (<[i := ColumnData.withAggregation aggregation
                (ColumnData.withCalculation (ColumnCalculation.new newExpression)
                   (ColumnData.new newName (ColumnData.columnType c)
                      (DynamicTable.replace_spaces newName)))]>
         (DynamicTable.columnList s))).
Proof.
  intros Hc Hn Hfirst. unfold DynamicTable.handleColumnEdit.
  assert (Hfind : list_find (fun column => ColumnData.columnName column = oldName)
                    (DynamicTable.columnList s) = Some (i, c)).
  { apply list_find_Some. auto. }
  rewrite Hfind. reflexivity.
Qed.

(** X18: [handleColumnEdit] throws when no column has the old name.
    Otherwise it replaces the first column that has it, at that
    position, by a column of the new name, of the same type, with the
    new expression and aggregation and with no rows, and keeps the
    other columns and the length of the list. *)
Theorem handleColumnEdit_replaces (oldName newName newExpression : string)
    (aggregation : ColumnAggregations.t) (s : DynamicTable.state) :
  (Forall (fun column => ColumnData.columnName column <> oldName) (DynamicTable.columnList s) ->
   DynamicTable.handleColumnEdit oldName newName newExpression aggregation s
   = Throw (TypeError "Cannot read properties of undefined")) /\
  (forall i c,
     DynamicTable.columnList s !! i = Some c ->
     ColumnData.columnName c = oldName ->
     (forall k c', DynamicTable.columnList s !! k = Some c' -> k < i ->
                   ColumnData.columnName c' <> oldName) ->
     exists s' c',
       DynamicTable.handleColumnEdit oldName newName newExpression aggregation s = Normal s' /\
       DynamicTable.isEditColumnDialogOpen s' = false /\
       DynamicTable.isNewColumnDialogOpen s' = DynamicTable.isNewColumnDialogOpen s /\
       length (DynamicTable.columnList s') = length (DynamicTable.columnList s) /\
       (forall k, k <> i -> DynamicTable.columnList s' !! k = DynamicTable.columnList s !! k) /\
       DynamicTable.columnList s' !! i = Some c' /\
       ColumnData.columnName c' = newName /\
       ColumnData.columnType c' = ColumnData.columnType c /\
       ColumnData.columnId c' = DynamicTable.replace_spaces newName /\
       ColumnData.calculation c' = ColumnCalculation.new newExpression /\
       ColumnData.rows c' = OwnRows ∅ /\
       ColumnData.aggregation c' = ColumnAggregator.mk aggregation).
Proof.
  split.
  - intros Hall. unfold DynamicTable.handleColumnEdit.
    rewrite (proj2 (list_find_None _ _) Hall). reflexivity.
  - intros i c Hc Hn Hfirst.
    rewrite (handleColumnEdit_found _ _ _ _ _ i c Hc Hn Hfirst).
    eexists _, _. split; [reflexivity|]. simpl.
    split; [reflexivity|]. split; [reflexivity|]. split; [apply length_insert|].
    split; [intros k Hk; apply list_lookup_insert_ne; congruence|].
    split; [apply list_lookup_insert_eq; eapply lookup_lt_Some, Hc|].
    repeat split.
Qed.

Lemma handleColumnEdit_replaces_witness :
  exists s' c',
    DynamicTable.handleColumnEdit "Volume" "Vol" "" ColumnAggregations.Max Sample.with_total
      = Normal s' /\
    DynamicTable.isEditColumnDialogOpen s' = false /\
    DynamicTable.isNewColumnDialogOpen s'
      = DynamicTable.isNewColumnDialogOpen Sample.with_total /\
    length (DynamicTable.columnList s') = length (DynamicTable.columnList Sample.with_total) /\
    (forall k, k <> 2 ->
       DynamicTable.columnList s' !! k = DynamicTable.columnList Sample.with_total !! k) /\
    DynamicTable.columnList s' !! 2 = Some c' /\
    ColumnData.columnName c' = "Vol" /\
    ColumnData.columnType c' = ColumnData.columnType (ColumnData.new "Volume" data "var_col_2") /\
    ColumnData.columnId c' = DynamicTable.replace_spaces "Vol" /\
    ColumnData.calculation c' = ColumnCalculation.new "" /\
    ColumnData.rows c' = OwnRows ∅ /\
    ColumnData.aggregation c' = ColumnAggregator.mk ColumnAggregations.Max.
Proof.
  apply (proj2 (handleColumnEdit_replaces "Volume" "Vol" "" ColumnAggregations.Max
                  Sample.with_total) 2 (ColumnData.new "Volume" data "var_col_2")).
  - reflexivity.
  - reflexivity.
  - intros k c' Hk Hlt. destruct k as [|[|k]]; [| |lia];
      simpl in Hk; injection Hk as <-; discriminate.
Defined.







(** ** Rows, variables and the state that [compile] starts from *)

(** X22: a row filled into a column is the row read back, the other
    rows read as before, and the variables are stored in the
    calculation; when the column holds raw data, every column that holds
    the same raw data reads the row filled. *)
Theorem fillCalculatedRow_getValue (math_evaluate : string -> completion (option string))
    (store : RawData) (this : ColumnData.t) (rowIndex : nat) (variables : gmap string value) :
  ColumnData.getValue
    (snd (ColumnData.fillCalculatedRow math_evaluate store this rowIndex variables))
    (fst (ColumnData.fillCalculatedRow math_evaluate store this rowIndex variables)) rowIndex
  = ColumnCalculation.calculate math_evaluate
      (ColumnCalculation.withVariables variables (ColumnData.calculation this)) /\
  (forall r, r <> rowIndex ->
     ColumnData.getValue
       (snd (ColumnData.fillCalculatedRow math_evaluate store this rowIndex variables))
       (fst (ColumnData.fillCalculatedRow math_evaluate store this rowIndex variables)) r
     = ColumnData.getValue store this r) /\
  ColumnData.calculation
    (fst (ColumnData.fillCalculatedRow math_evaluate store this rowIndex variables))
    = ColumnCalculation.withVariables variables (ColumnData.calculation this) /\
  (forall other position,
     ColumnData.rows this = RawRows position -> ColumnData.rows other = RawRows position ->
     ColumnData.getValue
       (snd (ColumnData.fillCalculatedRow math_evaluate store this rowIndex variables))
       other rowIndex
     = ColumnCalculation.calculate math_evaluate
         (ColumnCalculation.withVariables variables (ColumnData.calculation this))).
Proof.
  unfold ColumnData.fillCalculatedRow, ColumnData.getValue.
  destruct (ColumnData.rows this) as [rows|position] eqn:Hrows; simpl.
  - rewrite lookup_insert_eq. split; [reflexivity|]. split; [|split; [reflexivity|]].
    + intros r Hr. rewrite lookup_insert_ne by congruence. reflexivity.
    + intros other position [=].
  - rewrite !lookup_insert_eq. simpl. rewrite lookup_insert_eq.
    split; [reflexivity|]. split; [|split; [reflexivity|]].
    + intros r Hr. rewrite lookup_insert_ne by congruence. reflexivity.
    + intros other position' [= <-] ->. simpl.
      rewrite lookup_insert_eq. simpl. rewrite lookup_insert_eq. reflexivity.
Qed.

Lemma fillCalculatedRow_getValue_witness :
  ColumnData.getValue
    (snd (ColumnData.fillCalculatedRow Example.sum_evaluate {[ 1 := {[ 0 := Example.number 7 ]} ]}
            (ColumnData.setRows (RawRows 1)
               (ColumnData.withCalculation (ColumnCalculation.new "#A# + 1")
                  (ColumnData.new "More" calculated "More")))
            0 {[ "A" := Str "2" ]}))
    (ColumnData.setRows (RawRows 1) (ColumnData.new "Copy" data "Copy")) 0
  = ColumnCalculation.calculate Example.sum_evaluate
      (ColumnCalculation.withVariables {[ "A" := Str "2" ]} (ColumnCalculation.new "#A# + 1")).
Proof.
  apply (proj2 (proj2 (proj2
    (fillCalculatedRow_getValue Example.sum_evaluate {[ 1 := {[ 0 := Example.number 7 ]} ]}
       (ColumnData.setRows (RawRows 1)
          (ColumnData.withCalculation (ColumnCalculation.new "#A# + 1")
             (ColumnData.new "More" calculated "More")))
       0 {[ "A" := Str "2" ]})))
    (ColumnData.setRows (RawRows 1) (ColumnData.new "Copy" data "Copy")) 1);
    reflexivity.
Defined.


(** X24: [compile] reads neither [maxRow] nor the aggregation flag of
    the table it is called on: it computes both afresh. *)
Theorem compile_recomputes (math_evaluate : string -> completion (option string))
    (columns : list ColumnData.t) (rawData : RawData) (mapping : gmap string nat)
    (maxRow maxRow' : nat) (flag flag' : bool) :
  DataTable.compile math_evaluate (DataTable.mk columns rawData mapping maxRow flag)
  = DataTable.compile math_evaluate (DataTable.mk columns rawData mapping maxRow' flag').
Proof.
  unfold DataTable.compile. cbn [DataTable.columns DataTable.data
    DataTable.columnNameToIndexMapping DataTable.maxRow DataTable.isThereColumnAggregations].
  set (a := foldl _ (DataTable.mk columns rawData mapping 0 flag) _).
  set (a' := foldl _ (DataTable.mk columns rawData mapping 0 flag') _).
  destruct (assignRows_fold (seq 0 (length columns)) (DataTable.mk columns rawData mapping 0 flag))
    as (Hd & Hm & _ & Hc & Hx).
  destruct (assignRows_fold (seq 0 (length columns)) (DataTable.mk columns rawData mapping 0 flag'))
    as (Hd' & Hm' & _ & Hc' & Hx').
  fold a in Hd, Hm, Hc, Hx. fold a' in Hd', Hm', Hc', Hx'.
  assert (Hcols : DataTable.columns a = DataTable.columns a').
  { apply list_eq. intros j. rewrite Hc, Hc'. reflexivity. }
  rewrite Hcols, Hd, Hd', Hm, Hm', Hx, Hx'. reflexivity.
Qed.
